(** * Lunar Capital: the streaming dashboard clients

    A shallow embedding of the browser-side clients of the repository:

    - [DashSocket]: copilot/sockets/dash_socket.js (reconnecting dashboard
      stream, exponential backoff, [updateDashboard]);
    - [Template]: the inline script of the dashboard template (the older
      dashboard stream handler);
    - [MarketIntelligence]: sockets/mi_socket.js (class
      [MultiAssetMarketIntelligence]).

    The clients are event handlers over mutable page state.  Each handler is
    a function in a state-and-exception monad over a record that holds the
    variables the handlers close over, the DOM nodes they write, the
    WebSocket objects and the pending timers.  The fragment of ECMAScript
    the handlers rely on (dynamic values, coercions, property lookup,
    [Number.prototype.toFixed]) is in [JS]; JavaScript numbers are the
    kernel's binary64 floats. *)

From Stdlib Require Import ZArith NArith List String Ascii Bool Lia.
From Stdlib Require Import DecimalString.
From Stdlib Require Import Floats.
Import ListNotations.

Set Warnings "-inexact-float,-register-all".
Local Open Scope string_scope.

(* ===================================================================== *)
(** * The ECMAScript fragment *)
(* ===================================================================== *)

Module JS.

(** Values that reach the handlers: what [JSON.parse] builds, and
    [undefined] (the result of reading a property that is not there).
    [VObj] lists an object's own properties in property order, which is the
    order [Object.entries] follows. *)
Inductive value : Type :=
| VUndefined
| VNull
| VBool (b : bool)
| VNum (x : float)
| VStr (s : string)
| VArr (elems : list value)
| VObj (props : list (string * value)).

(** Errors a handler can observe. *)
Inductive error : Type :=
| TypeError
| SyntaxError
| InvalidStateError.

(** An abrupt or normal completion. *)
Inductive completion (A : Type) : Type :=
| Normal (a : A)
| Throw (e : error).
Arguments Normal {A} a.
Arguments Throw {A} e.

(** Statements run in a state monad with exceptions: the state written
    before a [throw] stays written. *)
Definition M (S A : Type) : Type := S -> completion A * S.

Definition ret {S A} (a : A) : M S A := fun s => (Normal a, s).

Definition throw {S A} (e : error) : M S A := fun s => (Throw e, s).

Definition bind {S A B} (m : M S A) (k : A -> M S B) : M S B :=
  fun s =>
    match m s with
    | (Normal a, s') => k a s'
    | (Throw e, s') => (Throw e, s')
    end.

(** [try { body } catch (err) { handler(err) }]. *)
Definition try_catch {S A} (body : M S A) (handler : error -> M S A) : M S A :=
  fun s =>
    match body s with
    | (Normal a, s') => (Normal a, s')
    | (Throw e, s') => handler e s'
    end.

Definition lift {S A} (c : completion A) : M S A := fun s => (c, s).

Definition modify {S} (f : S -> S) : M S unit := fun s => (Normal tt, f s).

Definition gets {S A} (f : S -> A) : M S A := fun s => (Normal (f s), s).

Definition when {S} (b : bool) (m : M S unit) : M S unit :=
  if b then m else ret tt.

(** [for (const x of xs) body(x)]; a [throw] leaves the loop. *)
Fixpoint for_of {S A} (xs : list A) (body : A -> M S unit) : M S unit :=
  match xs with
  | [] => ret tt
  | x :: rest => bind (body x) (fun _ => for_of rest body)
  end.

Definition exec {S A} (m : M S A) (s : S) : S := snd (m s).

Definition outcome {S A} (m : M S A) (s : S) : completion A := fst (m s).

Declare Scope js_scope.
Delimit Scope js_scope with js.
Notation "x <- m ;; k" := (bind m (fun x => k))
  (at level 61, m at next level, right associativity) : js_scope.
Notation "m ;; k" := (bind m (fun _ => k))
  (at level 61, right associativity) : js_scope.

(** ** Strings *)

(** The double quote, for markup. *)
Definition dq : string := String (ascii_of_nat 34) EmptyString.

(** [q s] is [s] between double quotes. *)
Definition q (s : string) : string := dq ++ s ++ dq.

Definition LF : string := String (ascii_of_nat 10) EmptyString.

Fixpoint spaces (n : nat) : string :=
  match n with
  | O => EmptyString
  | S n' => String " " (spaces n')
  end.

(** A line break of a template literal followed by [n] columns of
    indentation. *)
Definition nl (n : nat) : string := LF ++ spaces n.

Definition upper_ascii (c : ascii) : ascii :=
  let n := nat_of_ascii c in
  if (97 <=? n)%nat && (n <=? 122)%nat then ascii_of_nat (n - 32) else c.

(** [String.prototype.toUpperCase] on ASCII text. *)
Fixpoint toUpperCase (s : string) : string :=
  match s with
  | EmptyString => EmptyString
  | String c r => String (upper_ascii c) (toUpperCase r)
  end.

(** Decimal digits of a non-negative integer. *)
Definition decimal (n : Z) : string := NilZero.string_of_uint (N.to_uint (Z.to_N n)).

(** ** Numbers *)

(** The exact integer a number stands for, if it is one. *)
Definition integer_value (x : float) : option Z :=
  match Prim2SF x with
  | S754_zero _ => Some 0%Z
  | S754_finite s m e =>
      let n :=
        if (0 <=? e)%Z then Some (Z.pos m * 2 ^ e)%Z
        else if (Z.pos m mod 2 ^ (- e) =? 0)%Z then Some (Z.pos m / 2 ^ (- e))%Z
        else None in
      option_map (fun n => if s then (- n)%Z else n) n
  | _ => None
  end.

(** [2 ** n] for a non-negative integer [n]: the double [2^n], and
    [Infinity] from [n = 1024] on. *)
Definition pow2 (n : N) : float := Z.ldexp 1 (Z.of_N n).

(** [Math.min] of two numbers. *)
Definition Math_min (x y : float) : float :=
  if PrimFloat.is_nan x || PrimFloat.is_nan y then nan
  else if PrimFloat.ltb x y then x
  else if PrimFloat.ltb y x then y
  else if PrimFloat.get_sign x then x else y.

(** [Number.prototype.toFixed], ECMA-262 21.1.3.3.  For a finite [x] below
    [1e21] in magnitude the digits are those of the integer [n] for which
    [n / 10^f - x] is as close to zero as possible, the larger such [n] if
    there are two.  With [x = m * 2^e] that is [floor (x * 10^f + 1/2)]. *)
Definition round_scaled (m : positive) (e : Z) (f : nat) : Z :=
  let scaled := (Z.pos m * 10 ^ Z.of_nat f)%Z in
  if (0 <=? e)%Z then (scaled * 2 ^ e)%Z
  else ((2 * scaled + 2 ^ (- e)) / 2 ^ (1 - e))%Z.

Fixpoint zeros (n : nat) : string :=
  match n with
  | O => EmptyString
  | S n' => String "0" (zeros n')
  end.

(** The digits of [n] with a point before the last [f] of them. *)
Definition fixed_digits (n : Z) (f : nat) : string :=
  let d := decimal n in
  match f with
  | O => d
  | S _ =>
      let d := zeros (S f - String.length d) ++ d in
      let k := (String.length d - f)%nat in
      substring 0 k d ++ "." ++ substring k f d
  end.

(** ** What the engine and the browser supply

    Library functions of the host whose results the handlers only pass
    along.  [JSON_parse] is [None] where [JSON.parse] throws a SyntaxError.
    [Date_toLocaleTimeString v] is [new Date(v).toLocaleTimeString()],
    [Function_toString name] the source text the engine shows for the
    built-in function [name], and [HTML_serialize s] the markup the browser
    gives back for an element whose [innerHTML] was assigned the markup [s]:
    the serialisation of the nodes its parser built from [s]. *)
Record platform : Type := {
  JSON_parse : string -> option value;
  JSON_stringify : value -> string;
  Number_toString : float -> string;
  StringToNumber : string -> float;
  Date_toLocaleTimeString : value -> string;
  Function_toString : string -> string;
  HTML_serialize : string -> string
}.

Section Coercions.

Context (P : platform).

Definition Number_toFixed (x : float) (f : nat) : string :=
  match Prim2SF x with
  | S754_nan => "NaN"
  | S754_infinity s => if s then "-Infinity" else "Infinity"
  | S754_zero _ => fixed_digits 0 f
  | S754_finite s m e =>
      if PrimFloat.leb 1e21 (PrimFloat.abs x) then Number_toString P x
      else (if s then "-" else "") ++ fixed_digits (round_scaled m e f) f
  end.

(** [ToString]; an array joins its elements with commas, [null] and
    [undefined] elements as empty strings. *)
Fixpoint ToString (v : value) : string :=
  match v with
  | VUndefined => "undefined"
  | VNull => "null"
  | VBool b => if b then "true" else "false"
  | VNum x => Number_toString P x
  | VStr s => s
  | VArr elems =>
      (fix join (l : list value) : string :=
         match l with
         | [] => ""
         | e :: r =>
             match e with
             | VUndefined | VNull => ""
             | _ => ToString e
             end ++
             match r with
             | [] => ""
             | _ :: _ => "," ++ join r
             end
         end) elems
  | VObj _ => "[object Object]"
  end.

(** [ToPrimitive]: arrays and plain objects become their strings. *)
Definition ToPrimitive (v : value) : value :=
  match v with
  | VArr _ | VObj _ => VStr (ToString v)
  | _ => v
  end.

Definition ToNumber (v : value) : float :=
  match ToPrimitive v with
  | VUndefined => nan
  | VNull => 0
  | VBool b => if b then 1 else 0
  | VNum x => x
  | VStr s => StringToNumber P s
  | VArr _ | VObj _ => nan
  end.

(** [ToBoolean]. *)
Definition truthy (v : value) : bool :=
  match v with
  | VUndefined | VNull => false
  | VBool b => b
  | VNum x => negb (PrimFloat.is_zero x || PrimFloat.is_nan x)
  | VStr s => negb (String.eqb s "")
  | VArr _ | VObj _ => true
  end.

Definition is_undefined (v : value) : bool :=
  match v with
  | VUndefined => true
  | _ => false
  end.

(** [v === "lit"]. *)
Definition strict_eq_string (v : value) (lit : string) : bool :=
  match v with
  | VStr s => String.eqb s lit
  | _ => false
  end.

(** [a >= b]. *)
Definition ge (a b : value) : bool := PrimFloat.leb (ToNumber b) (ToNumber a).

(** [a > b] on values that are not both strings. *)
Definition gt (a b : value) : bool := PrimFloat.ltb (ToNumber b) (ToNumber a).

(** [a * b]. *)
Definition mul (a b : value) : value := VNum (ToNumber a * ToNumber b).

(** [a + b]: concatenation if either operand is a string after
    [ToPrimitive], addition otherwise. *)
Definition add (a b : value) : value :=
  match ToPrimitive a, ToPrimitive b with
  | VStr s, pb => VStr (s ++ ToString pb)
  | pa, VStr s => VStr (ToString pa ++ s)
  | pa, pb => VNum (ToNumber pa + ToNumber pb)
  end.

(** [Math.abs(v)]. *)
Definition Math_abs (v : value) : value := VNum (PrimFloat.abs (ToNumber v)).

Fixpoint own_property (name : string) (props : list (string * value)) : value :=
  match props with
  | [] => VUndefined
  | (k, v) :: rest => if String.eqb k name then v else own_property name rest
  end.

(** [v.name] for the property names the clients spell out, [length]
    apart.  None of them is a member of a built-in prototype, so the lookup
    is the own property or [undefined]; reading a property of [null] or
    [undefined] throws. *)
Definition Get (v : value) (name : string) : completion value :=
  match v with
  | VUndefined | VNull => Throw TypeError
  | VObj props => Normal (own_property name props)
  | VArr _ | VStr _ | VBool _ | VNum _ => Normal VUndefined
  end.

(** [v.length > 0] for a [v] other than [null] and [undefined].  Arrays
    and strings have a length of their own, positive when they are not
    empty; an object has the [length] it was given, if any; numbers and
    booleans have none, and [undefined > 0] is false. *)
Definition length_positive (v : value) : bool :=
  match v with
  | VArr elems => match elems with [] => false | _ :: _ => true end
  | VStr s => negb (String.eqb s "")
  | VObj props => gt (own_property "length" props) (VNum 0)
  | VUndefined | VNull | VBool _ | VNum _ => false
  end.

(** [v.toFixed(f)]: only numbers have the method. *)
Definition toFixed (v : value) (f : nat) : completion string :=
  match v with
  | VNum x => Normal (Number_toFixed x f)
  | _ => Throw TypeError
  end.

(** [Object.entries(v)]. *)
Fixpoint index_from (i : nat) (l : list value) : list (string * value) :=
  match l with
  | [] => []
  | e :: r => (decimal (Z.of_nat i), e) :: index_from (S i) r
  end.

Fixpoint chars_from (i : nat) (s : string) : list (string * value) :=
  match s with
  | EmptyString => []
  | String c r =>
      (decimal (Z.of_nat i), VStr (String c EmptyString)) :: chars_from (S i) r
  end.

Definition Object_entries (v : value) : completion (list (string * value)) :=
  match v with
  | VUndefined | VNull => Throw TypeError
  | VObj props => Normal props
  | VArr elems => Normal (index_from 0 elems)
  | VStr s => Normal (chars_from 0 s)
  | VBool _ | VNum _ => Normal []
  end.

(** The names every object literal inherits from [Object.prototype]. *)
Definition Object_prototype_names : list string :=
  [ "constructor"; "__defineGetter__"; "__defineSetter__"; "hasOwnProperty";
    "__lookupGetter__"; "__lookupSetter__"; "isPrototypeOf";
    "propertyIsEnumerable"; "toString"; "valueOf"; "__proto__";
    "toLocaleString" ].

Definition inherited (name : string) : bool :=
  existsb (String.eqb name) Object_prototype_names.

(** [JSON.parse(text)]. *)
Definition parse (text : string) : completion value :=
  match JSON_parse P text with
  | Some v => Normal v
  | None => Throw SyntaxError
  end.

(** [ToString] of the built-in object an inherited name leads to:
    [Object.prototype] itself for [__proto__], a function otherwise. *)
Definition builtin_ToString (name : string) : string :=
  if String.eqb name "__proto__" then "[object Object]"
  else Function_toString P name.

End Coercions.

End JS.


(* ===================================================================== *)
(** * The browser: WebSocket objects, timers, the console *)
(* ===================================================================== *)

Module Browser.

Import JS.

(** [WebSocket.readyState]. *)
Inductive readyState : Type :=
| CONNECTING
| OPEN
| CLOSING
| CLOSED.

Definition readyState_eqb (a b : readyState) : bool :=
  match a, b with
  | CONNECTING, CONNECTING | OPEN, OPEN | CLOSING, CLOSING | CLOSED, CLOSED => true
  | _, _ => false
  end.

(** A WebSocket object: the URL it was built with, its ready state and the
    frames handed to the network so far. *)
Record websocket : Type := {
  url : string;
  ready : readyState;
  sent : list string
}.

(** [new WebSocket(url)]. *)
Definition new_websocket (u : string) : websocket :=
  {| url := u; ready := CONNECTING; sent := [] |}.

Definition set_ready (r : readyState) (w : websocket) : websocket :=
  {| url := url w; ready := r; sent := sent w |}.

(** [socket.send(data)], WHATWG WebSockets 3.1: an InvalidStateError while
    the socket is connecting; the frame goes out on an open socket and is
    discarded on a closing or closed one. *)
Definition websocket_send (data : string) (w : websocket) : completion websocket :=
  match ready w with
  | CONNECTING => Throw InvalidStateError
  | OPEN => Normal {| url := url w; ready := OPEN; sent := sent w ++ [data] |}
  | CLOSING | CLOSED => Normal w
  end.

(** [socket.close()]: starts the closing handshake of a live socket. *)
Definition websocket_close (w : websocket) : websocket :=
  match ready w with
  | CLOSING | CLOSED => w
  | CONNECTING | OPEN => set_ready CLOSING w
  end.

Definition live (w : websocket) : bool := negb (readyState_eqb (ready w) CLOSED).

(** The WebSocket objects built so far; an object is known by its position
    in the list. *)
Definition replace_nth {A} (i : nat) (a : A) (l : list A) : list A :=
  firstn i l ++ match skipn i l with [] => [] | _ :: r => a :: r end.

(** A pending timer: the handle [setTimeout] returned and the delay it was
    given.  Each client passes one callback only, so it is not recorded. *)
Record timer : Type := {
  handle : nat;
  delay : float
}.

Record timers : Type := {
  pending : list timer;
  next_handle : nat
}.

Definition no_timers : timers := {| pending := []; next_handle := 1 |}.

(** [setTimeout(callback, ms)]: a fresh handle. *)
Definition setTimeout (ms : float) (t : timers) : nat * timers :=
  (next_handle t,
   {| pending := pending t ++ [{| handle := next_handle t; delay := ms |}];
      next_handle := S (next_handle t) |}).

(** [clearTimeout(h)]: [h] is a handle or [null]; clearing a timer that
    already fired, or [null], does nothing. *)
Definition clearTimeout (h : option nat) (t : timers) : timers :=
  match h with
  | None => t
  | Some n =>
      {| pending := filter (fun x => negb (Nat.eqb (handle x) n)) (pending t);
         next_handle := next_handle t |}
  end.

(** The timer task: the entry leaves the list when its callback starts. *)
Definition fired (n : nat) (t : timers) : timers :=
  {| pending := filter (fun x => negb (Nat.eqb (handle x) n)) (pending t);
     next_handle := next_handle t |}.

Definition is_pending (n : nat) (t : timers) : bool :=
  existsb (fun x => Nat.eqb (handle x) n) (pending t).

(** [window.location]. *)
Record location : Type := {
  protocol : string;
  host : string
}.

Inductive level : Type :=
| Log
| Warn
| Error.

(** A console line: its level and its first argument. *)
Definition console_line : Type := (level * string)%type.

End Browser.

(* ===================================================================== *)
(** * copilot/sockets/dash_socket.js *)
(* ===================================================================== *)

Module DashSocket.

Import JS Browser.
Local Open Scope js_scope.

(** The nodes [updateDashboard] looks up, by the lookup that finds them. *)
Inductive node : Type :=
| market_status_value      (* getElementById("market-status-value") *)
| market_breadth_span        (* querySelector("#market-status-card small span") *)
| market_breadth_tail      (* marketBreadthEl.parentElement.lastChild *)
| volatility_value         (* getElementById("volatility-value") *)
| volatility_change_span     (* querySelector("#volatility-card small span") *)
| volatility_change_tail   (* volatilityChangeEl.parentElement.lastChild *)
| alerts_value             (* getElementById("alerts-value") *)
| alerts_details           (* getElementById("alerts-details") *)
| session_activity_value   (* getElementById("session-activity-value") *)
| session_details.         (* getElementById("session-details") *)

Definition node_eqb (a b : node) : bool :=
  match a, b with
  | market_status_value, market_status_value
  | market_breadth_span, market_breadth_span
  | market_breadth_tail, market_breadth_tail
  | volatility_value, volatility_value
  | volatility_change_span, volatility_change_span
  | volatility_change_tail, volatility_change_tail
  | alerts_value, alerts_value
  | alerts_details, alerts_details
  | session_activity_value, session_activity_value
  | session_details, session_details => true
  | _, _ => false
  end.

(** [const reconnectState = { attempts: 0, timeout: null }]. *)
Record reconnectState : Type := {
  attempts : N;
  timeout : option nat
}.

(** The page: the variables the handlers close over, the WebSocket objects
    built so far, the pending timers, the content of each node ([None]: the
    lookup finds no element) and the console.  The two [small] elements end
    with a text node after their [span], as the dashboard template writes
    them, so a [_tail] node is written wherever its [span] is found. *)
Record page : Type := {
  location : Browser.location;
  reconnect : reconnectState;
  dashSocket : option nat;
  sockets : list websocket;
  timers : Browser.timers;
  dom : node -> option string;
  console : list console_line
}.

Definition RECONNECT_DELAY : float := 5000.
Definition MAX_RECONNECT_DELAY : float := 60000.

(** [window.location.protocol === "https:" ? "wss" : "ws"]. *)
Definition wsProtocol (loc : Browser.location) : string :=
  if String.eqb (protocol loc) "https:" then "wss" else "ws".

Definition wsUrl (loc : Browser.location) : string :=
  wsProtocol loc ++ "://" ++ host loc ++ "/ws/dashboard/".

(** [Math.min(RECONNECT_DELAY * 2 ** attempts, MAX_RECONNECT_DELAY)]. *)
Definition exponentialBackoff (attempts : N) : float :=
  Math_min (RECONNECT_DELAY * pow2 attempts) MAX_RECONNECT_DELAY.

Definition set_reconnect (r : reconnectState) (p : page) : page :=
  {| location := location p; reconnect := r; dashSocket := dashSocket p;
     sockets := sockets p; timers := timers p; dom := dom p;
     console := console p |}.

Definition set_sockets (d : option nat) (l : list websocket) (p : page) : page :=
  {| location := location p; reconnect := reconnect p; dashSocket := d;
     sockets := l; timers := timers p; dom := dom p; console := console p |}.

Definition set_timers (t : Browser.timers) (p : page) : page :=
  {| location := location p; reconnect := reconnect p; dashSocket := dashSocket p;
     sockets := sockets p; timers := t; dom := dom p; console := console p |}.

Definition set_dom (d : node -> option string) (p : page) : page :=
  {| location := location p; reconnect := reconnect p; dashSocket := dashSocket p;
     sockets := sockets p; timers := timers p; dom := d; console := console p |}.

Definition set_console (c : list console_line) (p : page) : page :=
  {| location := location p; reconnect := reconnect p; dashSocket := dashSocket p;
     sockets := sockets p; timers := timers p; dom := dom p; console := c |}.

Definition console_write (l : level) (msg : string) : M page unit :=
  modify (fun p => set_console (console p ++ [(l, msg)]) p).

(** Whether a lookup finds its element. *)
Definition found (n : node) : M page bool :=
  gets (fun p => match dom p n with Some _ => true | None => false end).

(** [el.textContent = s] and [el.innerHTML = s]. *)
Definition write (n : node) (s : string) : M page unit :=
  modify (fun p => set_dom (fun n' => if node_eqb n' n then Some s else dom p n') p).

Section WithPlatform.

Context (P : platform).

Definition updateDashboard (data : value) : M page unit :=
  (* --- Market Status --- *)
  marketStatusEl <- found market_status_value ;;
  marketBreadthEl <- found market_breadth_span ;;
  when marketStatusEl
    (market_status <- lift (Get data "market_status") ;;
     when (truthy market_status)
       (write market_status_value (ToString P market_status))) ;;
  when marketBreadthEl
    (breadth_pct <- lift (Get data "breadth_pct") ;;
     when (negb (is_undefined breadth_pct))
       (fixed <- lift (toFixed P breadth_pct 1) ;;
        write market_breadth_span
          ("+" ++ fixed ++ "% <i class=" ++ q "bi bi-arrow-up" ++ "></i>") ;;
        write market_breadth_tail " of instruments trending up")) ;;
  (* --- Volatility Index --- *)
  volatilityValueEl <- found volatility_value ;;
  volatilityChangeEl <- found volatility_change_span ;;
  when volatilityValueEl
    (volatility_index <- lift (Get data "volatility_index") ;;
     when (negb (is_undefined volatility_index))
       (fixed <- lift (toFixed P volatility_index 2) ;;
        write volatility_value fixed)) ;;
  when volatilityChangeEl
    (volatility_change <- lift (Get data "volatility_change") ;;
     when (negb (is_undefined volatility_change))
       (let isPositive := ge P volatility_change (VNum 0) in
        fixed <- lift (toFixed P (mul P volatility_change (VNum 100)) 1) ;;
        write volatility_change_span
          (nl 16 ++ (if isPositive then "+" else "") ++ fixed ++ "% " ++
           nl 16 ++ "<i class=" ++
           q ("bi bi-arrow-" ++ (if isPositive then "up" else "down")) ++ "></i>") ;;
        write volatility_change_tail " vs. yesterday")) ;;
  (* --- Actionable Signals --- *)
  alertsValueEl <- found alerts_value ;;
  alertsDetailsEl <- found alerts_details ;;
  when (alertsValueEl && alertsDetailsEl)
    (technical_breadth <- lift (Get data "technical_breadth") ;;
     when (truthy technical_breadth)
       (macd_bull_cross <- lift (Get technical_breadth "macd_bull_cross") ;;
        rsi_over_70 <- lift (Get technical_breadth "rsi_over_70") ;;
        pairs_evaluated <- lift (Get technical_breadth "pairs_evaluated") ;;
        write alerts_value (ToString P (add P macd_bull_cross rsi_over_70)) ;;
        write alerts_details
          (nl 16 ++ "<span class=" ++ q "text-success" ++ ">" ++
           ToString P macd_bull_cross ++ " MACD crosses</span> | " ++
           nl 16 ++ "<span class=" ++ q "text-danger" ++ ">" ++
           ToString P rsi_over_70 ++ " RSI > 70</span>" ++
           nl 16 ++ "<br><small class=" ++ q "text-muted" ++ ">Across " ++
           ToString P pairs_evaluated ++ " pairs</small>"))) ;;
  (* --- Session Activity --- *)
  sessionValueEl <- found session_activity_value ;;
  sessionDetailsEl <- found session_details ;;
  when (sessionValueEl && sessionDetailsEl)
    (session_activity <- lift (Get data "session_activity") ;;
     when (truthy session_activity)
       (write session_activity_value (ToString P session_activity) ;;
        current_session <- lift (Get data "current_session") ;;
        write session_details
          (nl 16 ++ "<span class=" ++ q "text-success" ++ ">" ++
           ToString P current_session ++ " " ++
           nl 20 ++ "<i class=" ++ q "bi bi-record-fill text-danger" ++ "></i>" ++
           nl 16 ++ "</span> Open"))).

(** [dashSocket.onmessage]. *)
Definition onmessage (event_data : string) : M page unit :=
  try_catch
    (data <- lift (parse P event_data) ;;
     console_write Log "[DASH] Data received:" ;;
     (* TODO: update DOM / dashboard widgets here *)
     updateDashboard data)
    (fun err => console_write Error "[DASH] Error parsing message:").

End WithPlatform.

Definition connectDashSocket : M page unit :=
  (* Clear previous reconnect timers *)
  modify (fun p => set_timers (clearTimeout (timeout (reconnect p)) (timers p)) p) ;;
  modify (fun p =>
            set_sockets (Some (List.length (sockets p)))
              (sockets p ++ [new_websocket (wsUrl (location p))]) p).

(** [dashSocket.onopen]. *)
Definition onopen : M page unit :=
  console_write Log "[DASH] Connected" ;;
  modify (fun p =>
            set_reconnect {| attempts := 0; timeout := timeout (reconnect p) |} p).

(** [dashSocket.onclose]. *)
Definition onclose : M page unit :=
  console_write Warn "[DASH] Connection closed, attempting to reconnect..." ;;
  modify (fun p =>
            set_reconnect {| attempts := N.succ (attempts (reconnect p));
                             timeout := timeout (reconnect p) |} p) ;;
  delay <- gets (fun p => exponentialBackoff (attempts (reconnect p))) ;;
  modify (fun p =>
            let (h, t) := setTimeout delay (timers p) in
            set_reconnect {| attempts := attempts (reconnect p); timeout := Some h |}
              (set_timers t p)).

(** [dashSocket.onerror]. *)
Definition onerror : M page unit :=
  console_write Error "[DASH] WebSocket error:".
  (* Let onclose handle reconnection *)

(** The [beforeunload] listener. *)
Definition beforeunload : M page unit :=
  modify (fun p =>
            match dashSocket p with
            | Some i =>
                match nth_error (sockets p) i with
                | Some w =>
                    set_sockets (dashSocket p)
                      (replace_nth i (websocket_close w) (sockets p)) p
                | None => p
                end
            | None => p
            end) ;;
  modify (fun p => set_timers (clearTimeout (timeout (reconnect p)) (timers p)) p).

Definition initialize : M page unit := connectDashSocket.

(** The page when the [DOMContentLoaded] listener starts. *)
Definition loaded (loc : Browser.location) (d : node -> option string) : page :=
  {| location := loc;
     reconnect := {| attempts := 0; timeout := None |};
     dashSocket := None;
     sockets := [];
     timers := no_timers;
     dom := d;
     console := [] |}.

Definition DOMContentLoaded (loc : Browser.location) (d : node -> option string) : page :=
  exec initialize (loaded loc d).

(** ** Events

    What the browser delivers to the page.  Every WebSocket the client
    builds carries the same four handlers. *)
Inductive event : Type :=
| Opened (i : nat)
| Message (i : nat) (data : string)
| Errored (i : nat)
| Closed (i : nat)
| TimerFired (h : nat)
| Unload.

Definition socket_ready (i : nat) (p : page) : option readyState :=
  option_map ready (nth_error (sockets p) i).

Definition mark (i : nat) (r : readyState) : M page unit :=
  modify (fun p =>
            match nth_error (sockets p) i with
            | Some w => set_sockets (dashSocket p) (replace_nth i (set_ready r w) (sockets p)) p
            | None => p
            end).

(** The browser's order of events: a socket opens once, out of
    [CONNECTING]; messages come on an open socket; a socket closes once,
    and is [CLOSED] from then on; a timer fires only while it is pending. *)
Definition deliverable (ev : event) (p : page) : bool :=
  match ev with
  | Opened i =>
      match socket_ready i p with Some CONNECTING => true | _ => false end
  | Message i _ =>
      match socket_ready i p with Some OPEN => true | _ => false end
  | Errored i | Closed i =>
      match socket_ready i p with
      | Some CONNECTING | Some OPEN | Some CLOSING => true
      | _ => false
      end
  | TimerFired h => is_pending h (timers p)
  | Unload => true
  end.

Section Events.

Context (P : platform).

(** The handler an event runs, after the browser's own update. *)
Definition dispatch (ev : event) : M page unit :=
  match ev with
  | Opened i => mark i OPEN ;; onopen
  | Message _ data => onmessage P data
  | Errored _ => onerror
  | Closed i => mark i CLOSED ;; onclose
  | TimerFired h =>
      modify (fun p => set_timers (fired h (timers p)) p) ;; connectDashSocket
  | Unload => beforeunload
  end.

(** A run of the page: [None] when the browser could not have delivered
    the events in this order. *)
Fixpoint run (trace : list event) (p : page) : option page :=
  match trace with
  | [] => Some p
  | ev :: rest =>
      if deliverable ev p then run rest (exec (dispatch ev) p) else None
  end.

End Events.

End DashSocket.

(* ===================================================================== *)
(** * The inline script of the dashboard template *)
(* ===================================================================== *)

Module Template.

Import JS Browser.
Local Open Scope js_scope.

(** The elements the script selects. *)
Inductive node : Type :=
| market_status_value      (* #market-status-value *)
| trending_up_value        (* #trending-up-value *)
| volatility_index_value   (* #volatility-index-value *)
| volatility_change_value  (* #volatility-change-value *)
| active_alerts_value      (* #active-alerts-value *)
| alerts_change_value      (* #alerts-change-value *)
| session_activity_value   (* #session-activity-value *)
| current_session_value.   (* #current-session-value *)

Definition node_eqb (a b : node) : bool :=
  match a, b with
  | market_status_value, market_status_value
  | trending_up_value, trending_up_value
  | volatility_index_value, volatility_index_value
  | volatility_change_value, volatility_change_value
  | active_alerts_value, active_alerts_value
  | alerts_change_value, alerts_change_value
  | session_activity_value, session_activity_value
  | current_session_value, current_session_value => true
  | _, _ => false
  end.

(** The content of each element; [None]: [querySelector] returns [null]. *)
Definition document : Type := node -> option string.

(** ['ws://' + window.location.host + '/ws/dashboard/']. *)
Definition socket_url (loc : Browser.location) : string :=
  "ws://" ++ host loc ++ "/ws/dashboard/".

(** [document.querySelector(sel).innerText = s] (or [.innerHTML = s]): a
    TypeError when nothing matches. *)
Definition assign (n : node) (s : string) : M document unit :=
  fun d =>
    match d n with
    | Some _ => (Normal tt, fun n' => if node_eqb n' n then Some s else d n')
    | None => (Throw TypeError, d)
    end.

Section WithPlatform.

Context (P : platform).

(** The string [innerText] stores for an assigned value: empty for
    [null], [ToString] otherwise. *)
Definition DOMString (v : value) : string :=
  match v with
  | VNull => ""
  | _ => ToString P v
  end.

(** [dashboardSocket.onmessage]; nothing catches what it throws. *)
Definition onmessage (e_data : string) : M document unit :=
  data <- lift (parse P e_data) ;;
  (* Update Market Status *)
  market_status <- lift (Get data "market_status") ;;
  assign market_status_value (DOMString market_status) ;;
  trending_up <- lift (Get data "trending_up") ;;
  assign trending_up_value
    ("<span class=" ++ q "text-success" ++ ">+" ++ ToString P trending_up ++
     "% <i class=" ++ q "bi bi-arrow-up" ++ "></i></span> of instruments trending up") ;;
  (* Update Volatility Index *)
  volatility_index <- lift (Get data "volatility_index") ;;
  assign volatility_index_value (DOMString volatility_index) ;;
  volatility_change <- lift (Get data "volatility_change") ;;
  let volChangeClass :=
    if ge P volatility_change (VNum 0) then "text-danger" else "text-success" in
  let volChangeIcon :=
    if ge P volatility_change (VNum 0) then "bi-arrow-up" else "bi-arrow-down" in
  assign volatility_change_value
    ("<span class=" ++ q volChangeClass ++ ">" ++
     ToString P (Math_abs P volatility_change) ++
     "% <i class=" ++ q ("bi " ++ volChangeIcon) ++ "></i></span> vs. yesterday") ;;
  (* Update Active Alerts *)
  active_alerts <- lift (Get data "active_alerts") ;;
  assign active_alerts_value (DOMString active_alerts) ;;
  alerts_change <- lift (Get data "alerts_change") ;;
  let alertChangeClass :=
    if ge P alerts_change (VNum 0) then "text-success" else "text-danger" in
  let alertChangeIcon :=
    if ge P alerts_change (VNum 0) then "bi-arrow-up" else "bi-arrow-down" in
  assign alerts_change_value
    ("<span class=" ++ q alertChangeClass ++ ">" ++
     ToString P (Math_abs P alerts_change) ++
     " <i class=" ++ q ("bi " ++ alertChangeIcon) ++ "></i></span> This week") ;;
  (* Update Session Activity *)
  session_activity <- lift (Get data "session_activity") ;;
  assign session_activity_value (DOMString session_activity) ;;
  current_session <- lift (Get data "current_session") ;;
  assign current_session_value
    ("<span class=" ++ q "text-success" ++ ">" ++ ToString P current_session ++
     " <i class=" ++ q "bi bi-record-fill text-danger" ++ "></i></span> Open").

End WithPlatform.

End Template.

(* ===================================================================== *)
(** * sockets/mi_socket.js: class MultiAssetMarketIntelligence *)
(* ===================================================================== *)

Module MarketIntelligence.

Import JS Browser.
Local Open Scope js_scope.

(** The three containers the constructor looks up. *)
Inductive asset : Type :=
| forex
| crypto
| stocks.

Definition asset_eqb (a b : asset) : bool :=
  match a, b with
  | forex, forex | crypto, crypto | stocks, stocks => true
  | _, _ => false
  end.

Definition asset_key (a : asset) : string :=
  match a with
  | forex => "forex"
  | crypto => "crypto"
  | stocks => "stocks"
  end.

(** The instance and what it reaches.  [containers a] is the markup last
    assigned to the element stored in [this.assetContainers] ([None]: [getElementById]
    found none, the property holds [null]).  [builtin_innerHTML name] is the
    [innerHTML] property of the built-in object that the inherited name
    [name] leads to, once something assigned it; under ["__proto__"] that
    object is [Object.prototype], so every object literal then inherits the
    property.  DOM elements have an [innerHTML] of their own. *)
Record client : Type := {
  location : Browser.location;
  socket : nat;
  sockets : list websocket;
  timers : Browser.timers;
  containers : asset -> option string;
  last_updated_time : option string;
  builtin_innerHTML : string -> option string;
  console : list console_line
}.

Definition set_socket (i : nat) (l : list websocket) (c : client) : client :=
  {| location := location c; socket := i; sockets := l; timers := timers c;
     containers := containers c; last_updated_time := last_updated_time c;
     builtin_innerHTML := builtin_innerHTML c; console := console c |}.

Definition set_timers (t : Browser.timers) (c : client) : client :=
  {| location := location c; socket := socket c; sockets := sockets c; timers := t;
     containers := containers c; last_updated_time := last_updated_time c;
     builtin_innerHTML := builtin_innerHTML c; console := console c |}.

Definition set_containers (f : asset -> option string) (c : client) : client :=
  {| location := location c; socket := socket c; sockets := sockets c;
     timers := timers c; containers := f;
     last_updated_time := last_updated_time c;
     builtin_innerHTML := builtin_innerHTML c; console := console c |}.

Definition set_last_updated_time (s : option string) (c : client) : client :=
  {| location := location c; socket := socket c; sockets := sockets c;
     timers := timers c; containers := containers c; last_updated_time := s;
     builtin_innerHTML := builtin_innerHTML c; console := console c |}.

Definition set_builtin_innerHTML (f : string -> option string) (c : client) : client :=
  {| location := location c; socket := socket c; sockets := sockets c;
     timers := timers c; containers := containers c;
     last_updated_time := last_updated_time c;
     builtin_innerHTML := f; console := console c |}.

Definition set_console (l : list console_line) (c : client) : client :=
  {| location := location c; socket := socket c; sockets := sockets c;
     timers := timers c; containers := containers c;
     last_updated_time := last_updated_time c;
     builtin_innerHTML := builtin_innerHTML c; console := l |}.

Definition console_write (l : level) (msg : string) : M client unit :=
  modify (fun c => set_console (console c ++ [(l, msg)]) c).

(** ['ws://' + window.location.host + '/ws/market-intelligence/']. *)
Definition socket_url (loc : Browser.location) : string :=
  "ws://" ++ host loc ++ "/ws/market-intelligence/".

(** ** Property lookup in the three object literals

    [table[key]] on an object literal: an own property; else a member of
    [Object.prototype]; else the [innerHTML] that [Object.prototype] may
    have been given; else [undefined]. *)
Inductive slot (A : Type) : Type :=
| Own (a : A)
| Builtin (name : string)
| Text (s : string)
| Undefined.
Arguments Own {A} a.
Arguments Builtin {A} name.
Arguments Text {A} s.
Arguments Undefined {A}.

Fixpoint own_entry {A} (key : string) (own : list (string * A)) : option A :=
  match own with
  | [] => None
  | (k, a) :: rest => if String.eqb k key then Some a else own_entry key rest
  end.

Definition lookup {A} (own : list (string * A)) (key : string) : M client (slot A) :=
  gets (fun c =>
          match own_entry key own with
          | Some a => Own a
          | None =>
              if inherited key then Builtin key
              else if String.eqb key "innerHTML" then
                match builtin_innerHTML c "__proto__" with
                | Some s => Text s
                | None => Undefined
                end
              else Undefined
          end).

(** [this.assetContainers]: each own property holds an element or [null]. *)
Definition assetContainers : list (string * asset) :=
  [("forex", forex); ("crypto", crypto); ("stocks", stocks)].

Definition assetIcons : list (string * string) :=
  [("forex", "bi-currency-exchange");
   ("crypto", "bi-currency-bitcoin");
   ("stocks", "bi-graph-up")].

Definition priorityClasses : list (string * string) :=
  [("high", "alert-danger");
   ("medium", "alert-warning");
   ("low", "alert-info")].

(** What [this.assetContainers[assetClass]] evaluates to. *)
Inductive container : Type :=
| Element (a : asset)
| BuiltinObject (name : string)
| StringValue (s : string)
| Nothing.

Definition assetContainers_get (assetClass : string) : M client container :=
  s <- lookup assetContainers assetClass ;;
  gets (fun c =>
          match s with
          | Own a => match containers c a with Some _ => Element a | None => Nothing end
          | Builtin name => BuiltinObject name
          | Text t => StringValue t
          | Undefined => Nothing
          end).

(** [!container]. *)
Definition container_falsy (k : container) : bool :=
  match k with
  | Element _ | BuiltinObject _ => false
  | StringValue s => String.eqb s ""
  | Nothing => true
  end.

(** [container.innerHTML = s].  The class body is strict code: creating a
    property on a string throws. *)
Definition set_innerHTML (k : container) (s : string) : M client unit :=
  match k with
  | Element a =>
      modify (fun c =>
                set_containers
                  (fun a' => if asset_eqb a' a then Some s else containers c a') c)
  | BuiltinObject name =>
      modify (fun c =>
                set_builtin_innerHTML
                  (fun n => if String.eqb n name then Some s else builtin_innerHTML c n) c)
  | StringValue _ | Nothing => throw TypeError
  end.

Section WithPlatform.

Context (P : platform).

(** What an element's [innerHTML] reads as after it was assigned [s]: an
    element that was assigned the empty string has no children and reads
    as the empty string; otherwise the browser serialises what it parsed. *)
Definition element_innerHTML (s : string) : string :=
  if String.eqb s "" then "" else HTML_serialize P s.

(** [container.innerHTML].  An element answers with the serialisation of
    its children; a built-in object with the string its property holds. *)
Definition get_innerHTML (k : container) : M client string :=
  match k with
  | Element a =>
      gets (fun c =>
              match containers c a with
              | Some s => element_innerHTML s
              | None => ""
              end)
  | BuiltinObject name =>
      gets (fun c =>
              match builtin_innerHTML c name with
              | Some s => s
              | None =>
                  match builtin_innerHTML c "__proto__" with
                  | Some s => s
                  | None => "undefined"
                  end
              end)
  | StringValue _ | Nothing => ret "undefined"
  end.

(** [`${x}`] for the value of a table lookup. *)
Definition slot_ToString (s : slot string) : string :=
  match s with
  | Own a => a
  | Builtin name => builtin_ToString P name
  | Text t => t
  | Undefined => "undefined"
  end.

(** [x || fallback] for the value of a table lookup. *)
Definition slot_or (s : slot string) (fallback : string) : slot string :=
  match s with
  | Own a => if String.eqb a "" then Own fallback else s
  | Builtin _ => s
  | Text t => if String.eqb t "" then Own fallback else s
  | Undefined => Own fallback
  end.

Definition narrativeElement (alertClass iconClass : slot string)
    (symbol priority narrative time confidence : string) : string :=
  nl 20 ++ "<div class=" ++
    q ("alert " ++ slot_ToString alertClass ++ " alert-dismissible fade show mb-3") ++
    " role=" ++ q "alert" ++ ">" ++
  nl 24 ++ "<div class=" ++ q "d-flex align-items-center" ++ ">" ++
  nl 28 ++ "<div class=" ++ q "flex-grow-1" ++ ">" ++
  nl 32 ++ "<h6 class=" ++ q "alert-heading mb-1" ++ ">" ++
  nl 36 ++ "<i class=" ++ q (slot_ToString iconClass ++ " me-2") ++ "></i>" ++
  nl 36 ++ symbol ++
  nl 36 ++ "<span class=" ++ q "badge bg-dark ms-2" ++ ">" ++ priority ++ "</span>" ++
  nl 32 ++ "</h6>" ++
  nl 32 ++ "<p class=" ++ q "mb-1" ++ ">" ++ narrative ++ "</p>" ++
  nl 32 ++ "<small class=" ++ q "text-muted" ++ ">" ++
  nl 36 ++ time ++ " " ++
  nl 36 ++ "• Confidence: " ++ confidence ++ "%" ++
  nl 32 ++ "</small>" ++
  nl 28 ++ "</div>" ++
  nl 28 ++ "<button type=" ++ q "button" ++ " class=" ++ q "btn-close" ++
    " data-bs-dismiss=" ++ q "alert" ++ "></button>" ++
  nl 24 ++ "</div>" ++
  nl 20 ++ "</div>" ++
  nl 16.

(** The markup of the branch "No narratives available". *)
Definition no_data (icon : slot string) (assetClass : string) : string :=
  nl 16 ++ "<div class=" ++ q "text-center py-4 text-muted" ++ ">" ++
  nl 20 ++ "<i class=" ++ q (slot_ToString icon ++ " display-4 d-block mb-2") ++ "></i>" ++
  nl 20 ++ "<p>No market intelligence available for " ++ assetClass ++ "</p>" ++
  nl 20 ++ "<small>Check back later for updates</small>" ++
  nl 16 ++ "</div>" ++
  nl 12.

(** The body of the [forEach] callback. *)
Definition render_narrative (k : container) (assetClass : string)
    (narrative : value) : M client unit :=
  priority <- lift (Get narrative "priority") ;;
  alertClass <- lookup priorityClasses (ToString P priority) ;;
  let alertClass := slot_or alertClass "alert-secondary" in
  iconClass <- lookup assetIcons assetClass ;;
  let iconClass := slot_or iconClass "bi-circle" in
  symbol <- lift (Get narrative "symbol") ;;
  text <- lift (Get narrative "narrative") ;;
  timestamp <- lift (Get narrative "timestamp") ;;
  confidence <- lift (Get narrative "confidence") ;;
  percent <- lift (toFixed P (mul P confidence (VNum 100)) 0) ;;
  let element :=
    narrativeElement alertClass iconClass (ToString P symbol) (ToString P priority)
      (ToString P text) (Date_toLocaleTimeString P timestamp) percent in
  html <- get_innerHTML k ;;
  set_innerHTML k (html ++ element).

(** [narratives.forEach(callback)]: arrays only have the method. *)
Definition forEach (narratives : value) (callback : value -> M client unit)
    : M client unit :=
  match narratives with
  | VArr elems => for_of elems callback
  | _ => throw TypeError
  end.

Definition updateAssetDashboard (assetClass : string) (narratives : value)
    : M client unit :=
  k <- assetContainers_get assetClass ;;
  if container_falsy k then ret tt
  else
    (* Clear existing content *)
    set_innerHTML k "" ;;
    (* Add new narratives *)
    if truthy narratives && length_positive P narratives then
      forEach narratives (render_narrative k assetClass)
    else
      (* No narratives available *)
      icon <- lookup assetIcons assetClass ;;
      set_innerHTML k (no_data icon assetClass).

Definition updateAllAssetDashboards (narrativesByAsset : value) : M client unit :=
  (* Update each asset class section *)
  entries <- lift (Object_entries narrativesByAsset) ;;
  for_of entries (fun '(assetClass, narratives) =>
                    updateAssetDashboard assetClass narratives).

Definition updateLastUpdatedTime (timestamp : value) : M client unit :=
  modify (fun c =>
            match last_updated_time c with
            | Some _ => set_last_updated_time (Some (Date_toLocaleTimeString P timestamp)) c
            | None => c
            end).

(** [showToast(message, type)]: a console line for now. *)
Definition showToast (message : string) (type : string) : M client unit :=
  console_write Log (toUpperCase type ++ ": " ++ message).

Definition handleMessage (e_data : string) : M client unit :=
  try_catch
    (data <- lift (parse P e_data) ;;
     type <- lift (Get data "type") ;;
     if strict_eq_string type "market_intelligence"
        || strict_eq_string type "immediate_update" then
       payload <- lift (Get data "data") ;;
       updateAllAssetDashboards payload ;;
       timestamp <- lift (Get data "timestamp") ;;
       updateLastUpdatedTime timestamp
     else if strict_eq_string type "preferences_updated" then
       showToast "Preferences updated successfully" "success"
     else if strict_eq_string type "error" then
       message <- lift (Get data "message") ;;
       showToast (ToString P message) "danger"
     else ret tt)
    (fun error => console_write Error "Error parsing WebSocket message:").

(** [this.socket.send(text)]. *)
Definition socket_send (text : string) : M client unit :=
  fun c =>
    match nth_error (sockets c) (socket c) with
    | Some w =>
        match websocket_send text w with
        | Normal w' =>
            (Normal tt, set_socket (socket c) (replace_nth (socket c) w' (sockets c)) c)
        | Throw e => (Throw e, c)
        end
    | None => (Throw TypeError, c)
    end.

Definition requestImmediateUpdate : M client unit :=
  socket_send (JSON_stringify P (VObj [("type", VStr "request_update")])).

Definition updatePreferences (preferences : value) : M client unit :=
  socket_send
    (JSON_stringify P
       (VObj [("type", VStr "set_preferences"); ("preferences", preferences)])).

End WithPlatform.

Definition handleClose : M client unit :=
  console_write Log "WebSocket connection closed" ;;
  showToast "Connection to market intelligence service lost" "warning" ;;
  (* Try to reconnect after 5 seconds *)
  modify (fun c => set_timers (snd (setTimeout 5000 (timers c))) c).

Definition handleError : M client unit :=
  console_write Error "WebSocket error:" ;;
  showToast "Connection error" "danger".

Definition reconnect : M client unit :=
  console_write Log "Attempting to reconnect..." ;;
  try_catch
    (modify (fun c =>
               set_socket (List.length (sockets c))
                 (sockets c ++ [new_websocket (socket_url (location c))]) c))
    (fun e => console_write Error "Reconnection failed:").

(** [new MultiAssetMarketIntelligence()] on a page whose containers hold
    [regions] and whose [last-updated-time] element holds [stamp]. *)
Definition constructor (loc : Browser.location) (regions : asset -> option string)
    (stamp : option string) : client :=
  {| location := loc;
     socket := 0;
     sockets := [new_websocket (socket_url loc)];
     timers := no_timers;
     containers := regions;
     last_updated_time := stamp;
     builtin_innerHTML := fun _ => None;
     console := [] |}.

(** ** Events *)
Inductive event : Type :=
| Opened (i : nat)
| Message (i : nat) (data : string)
| Errored (i : nat)
| Closed (i : nat)
| TimerFired (h : nat)
| RefreshClicked.

Definition socket_ready (i : nat) (c : client) : option readyState :=
  option_map ready (nth_error (sockets c) i).

Definition mark (i : nat) (r : readyState) : M client unit :=
  modify (fun c =>
            match nth_error (sockets c) i with
            | Some w => set_socket (socket c) (replace_nth i (set_ready r w) (sockets c)) c
            | None => c
            end).

(** The browser's order of events, as for the dashboard stream. *)
Definition deliverable (ev : event) (c : client) : bool :=
  match ev with
  | Opened i =>
      match socket_ready i c with Some CONNECTING => true | _ => false end
  | Message i _ =>
      match socket_ready i c with Some OPEN => true | _ => false end
  | Errored i | Closed i =>
      match socket_ready i c with
      | Some CONNECTING | Some OPEN | Some CLOSING => true
      | _ => false
      end
  | TimerFired h => is_pending h (timers c)
  | RefreshClicked => true
  end.

Section Events.

Context (P : platform).

(** The handler an event runs; the instance sets no [onopen]. *)
Definition dispatch (ev : event) : M client unit :=
  match ev with
  | Opened i => mark i OPEN
  | Message _ data => handleMessage P data
  | Errored _ => handleError
  | Closed i => mark i CLOSED ;; handleClose
  | TimerFired h =>
      modify (fun c => set_timers (fired h (timers c)) c) ;; reconnect
  | RefreshClicked => requestImmediateUpdate P
  end.

Fixpoint run (trace : list event) (c : client) : option client :=
  match trace with
  | [] => Some c
  | ev :: rest =>
      if deliverable ev c then run rest (exec (dispatch ev) c) else None
  end.

End Events.

End MarketIntelligence.

(* ===================================================================== *)
(** * Vocabulary of the statements *)
(* ===================================================================== *)

Import JS Browser.

(** A statement keeps a view of the state when every run of it, normal or
    abrupt, ends in a state with the view it started from. *)
Definition keeps {S A B : Type} (view : S -> B) (m : M S A) : Prop :=
  forall s, view (exec m s) = view s.

(** A statement ends normally when no run of it throws. *)
Definition total {S A : Type} (m : M S A) : Prop :=
  forall s, exists a, outcome m s = Normal a.

(** A check of every attempt count below [k]. *)
Fixpoint all_below (k : nat) (f : N -> bool) : bool :=
  match k with
  | O => true
  | S k' => f (N.of_nat k') && all_below k' f
  end.

Definition option_Z_eqb (a b : option Z) : bool :=
  match a, b with
  | Some x, Some y => Z.eqb x y
  | None, None => true
  | _, _ => false
  end.

(** The delay in whole milliseconds, as the formula gives it. *)
Definition backoff_ms (n : N) : Z := Z.min (5000 * 2 ^ Z.of_N n) 60000.

(** Sockets that have not closed, and timers that have not fired. *)
Definition count_live (l : list websocket) : nat := List.length (filter live l).

Definition count_pending (t : timers) : nat := List.length (pending t).

(** What the dashboard page knows of its connection. *)
Definition dash_connection (p : DashSocket.page)
    : DashSocket.reconnectState * option nat * list websocket * Browser.timers :=
  (DashSocket.reconnect p, DashSocket.dashSocket p, DashSocket.sockets p,
   DashSocket.timers p).

(** Pending timers and live sockets together never exceed one. *)
Definition dash_balanced (p : DashSocket.page) : Prop :=
  (count_pending (DashSocket.timers p) + count_live (DashSocket.sockets p) <= 1)%nat.

(** What the market intelligence instance knows of its connection. *)
Definition mi_connection (c : MarketIntelligence.client)
    : nat * list websocket * Browser.timers :=
  (MarketIntelligence.socket c, MarketIntelligence.sockets c,
   MarketIntelligence.timers c).

Definition mi_balanced (c : MarketIntelligence.client) : Prop :=
  (count_pending (MarketIntelligence.timers c)
   + count_live (MarketIntelligence.sockets c) <= 1)%nat.

(** Every pending timer of the dashboard page is the one whose handle
    [reconnectState.timeout] holds. *)
Definition handle_is_stored (p : DashSocket.page) : Prop :=
  Forall (fun t => DashSocket.timeout (DashSocket.reconnect p) = Some (handle t))
    (pending (DashSocket.timers p)).

(** The payload field that guards each node in [updateDashboard]. *)
Definition field_of (n : DashSocket.node) : string :=
  match n with
  | DashSocket.market_status_value => "market_status"
  | DashSocket.market_breadth_span | DashSocket.market_breadth_tail => "breadth_pct"
  | DashSocket.volatility_value => "volatility_index"
  | DashSocket.volatility_change_span | DashSocket.volatility_change_tail =>
      "volatility_change"
  | DashSocket.alerts_value | DashSocket.alerts_details => "technical_breadth"
  | DashSocket.session_activity_value | DashSocket.session_details =>
      "session_activity"
  end.

(** The payload has no field [f]: reading it gives [undefined], if it
    gives anything. *)
Definition lacks (data : value) (f : string) : Prop :=
  forall v, Get data f = Normal v -> v = VUndefined.

(** A timer that [onclose] scheduled: its delay is the backoff of an
    attempt count of one or more. *)
Definition backoff_timer (t : timer) : Prop :=
  exists k : N, (1 <= k)%N /\ delay t = DashSocket.exponentialBackoff k.


(** The keys [updateAllAssetDashboards] iterates over. *)
Definition payload_keys (payload : value) : list string :=
  match Object_entries payload with
  | Normal entries => map fst entries
  | Throw _ => []
  end.

(** A narrative as the backend documents it. *)
Module Narrative.

Record t : Type := {
  symbol : string;
  priority : string;
  narrative : string;
  confidence : float;
  timestamp : string
}.

(** The object [JSON.parse] builds for it. *)
Definition to_value (n : t) : value :=
  VObj [("symbol", VStr (symbol n));
        ("priority", VStr (priority n));
        ("narrative", VStr (narrative n));
        ("confidence", VNum (confidence n));
        ("timestamp", VStr (timestamp n))].

End Narrative.

Module Render.

Import MarketIntelligence.

(** What [this.priorityClasses[priority] || 'alert-secondary'] evaluates
    to in a given state of the instance. *)
Definition alertClass (c : client) (priority : string) : slot string :=
  match outcome (lookup priorityClasses priority) c with
  | Normal s => slot_or s "alert-secondary"
  | Throw _ => Undefined
  end.

Definition icon (a : asset) : string :=
  match a with
  | forex => "bi-currency-exchange"
  | crypto => "bi-currency-bitcoin"
  | stocks => "bi-graph-up"
  end.

(** The markup of one narrative in the container of [a]. *)
Definition entry (P : platform) (c : client) (a : asset) (n : Narrative.t) : string :=
  narrativeElement P (alertClass c (Narrative.priority n)) (Own (icon a))
    (Narrative.symbol n) (Narrative.priority n) (Narrative.narrative n)
    (Date_toLocaleTimeString P (VStr (Narrative.timestamp n)))
    (Number_toFixed P (Narrative.confidence n * 100) 0).

(** The markup of a container that held [html] after the [entries] were
    appended to it one [+=] at a time: every append continues from what
    the container's [innerHTML] reads as. *)
Definition appended (P : platform) (html : string) (entries : list string) : string :=
  fold_left (fun markup e => element_innerHTML P markup ++ e) entries html.

(** The states that differ from [c] in the markup of container [a] only. *)
Definition differs_at (a : asset) (html : string) (c c' : client) : Prop :=
  location c' = location c
  /\ socket c' = socket c
  /\ sockets c' = sockets c
  /\ timers c' = timers c
  /\ last_updated_time c' = last_updated_time c
  /\ builtin_innerHTML c' = builtin_innerHTML c
  /\ console c' = console c
  /\ containers c' a = Some html
  /\ (forall a', asset_eqb a' a = false -> containers c' a' = containers c a').

End Render.


(* ===================================================================== *)
(** * Worked inputs *)
(* ===================================================================== *)

Definition sample_location : Browser.location :=
  {| protocol := "https:"; host := "lunar.example" |}.

(** Frames as the backend could send them, by what [JSON.parse] makes of
    their text. *)
Definition sample_frames : list (string * value) :=
  [ ("volatility only", VObj [("volatility_index", VNum 18.4)]);
    ("unknown type", VObj [("type", VStr "heartbeat"); ("data", VObj [])]);
    ("null narrative",
     VObj [("type", VStr "market_intelligence");
           ("data", VObj [("forex", VArr [VNull])])]);
    ("status then text",
     VObj [("market_status", VStr "Open"); ("volatility_index", VStr "high")]) ].

(** How the markup of the worked inputs reads back from an element: as
    assigned, except that an ampersand standing alone in text reads back
    as the entity. *)
Fixpoint escape_ampersands (s : string) : string :=
  match s with
  | EmptyString => EmptyString
  | String c rest =>
      if (Ascii.eqb c "&" && prefix " " rest)%bool
      then "&amp;" ++ escape_ampersands rest
      else String c (escape_ampersands rest)
  end.

(** A host for the worked inputs: it parses the sample frames, referred
    to by name, and nothing else. *)
Definition sample_platform : platform :=
  {| JSON_parse :=
       fun text =>
         option_map snd (find (fun e => String.eqb (fst e) text) sample_frames);
     JSON_stringify := fun _ => "{}";
     Number_toString := fun _ => "0";
     StringToNumber := fun _ => nan;
     Date_toLocaleTimeString := fun _ => "Invalid Date";
     Function_toString := fun name => "function " ++ name ++ "() { [native code] }";
     HTML_serialize := escape_ampersands |}.

(** A host on which the text at hand parses to [frame]. *)
Definition frame_platform (frame : value) : platform :=
  {| JSON_parse := fun _ => Some frame;
     JSON_stringify := JSON_stringify sample_platform;
     Number_toString := Number_toString sample_platform;
     StringToNumber := StringToNumber sample_platform;
     Date_toLocaleTimeString := Date_toLocaleTimeString sample_platform;
     Function_toString := Function_toString sample_platform;
     HTML_serialize := HTML_serialize sample_platform |}.

Definition sample_document : DashSocket.node -> option string := fun _ => Some "-".

Definition sample_regions : MarketIntelligence.asset -> option string :=
  fun _ => Some "<p>earlier</p>".

Definition sample_page : DashSocket.page :=
  DashSocket.DOMContentLoaded sample_location sample_document.

Definition sample_client : MarketIntelligence.client :=
  MarketIntelligence.constructor sample_location sample_regions (Some "-").


Definition hold_narrative : Narrative.t :=
  {| Narrative.symbol := "BTCUSD";
     Narrative.priority := "high";
     Narrative.narrative := "buy & hold";
     Narrative.confidence := 0.5;
     Narrative.timestamp := "2024-01-01T00:00:00Z" |}.

Definition sample_narrative (priority : string) : Narrative.t :=
  {| Narrative.symbol := "EURUSD";
     Narrative.priority := priority;
     Narrative.narrative := "breakout";
     Narrative.confidence := 0.82;
     Narrative.timestamp := "2024-01-01T00:00:00Z" |}.


(* ===================================================================== *)
(** * Reasoning about handlers *)
(* ===================================================================== *)

Import JS Browser.
Local Open Scope js_scope.

(** ** Bounded checks over the attempt counter *)


Lemma all_below_spec (k : nat) (f : N -> bool) :
  all_below k f = true -> forall n, (n < N.of_nat k)%N -> f n = true.
Proof.
  induction k as [|k IH]; simpl; intros H n Hn.
  - lia.
  - apply andb_true_iff in H as [H1 H2].
    destruct (N.eq_dec n (N.of_nat k)) as [->|Hne]; [exact H1|].
    apply IH; [exact H2|lia].
Qed.

(** [Z.ldexp] clamps its exponent: from 2098 on, [2 ** n] is one value. *)
Lemma pow2_clamp (n : N) : (2098 <= n)%N -> pow2 n = pow2 2098.
Proof.
  intros H. unfold pow2, Z.ldexp.
  change (Z.sub emax (SpecFloat.emin prec emax)) with 2098%Z.
  rewrite (Z.min_r (Z.of_N n)) by lia. reflexivity.
Qed.

Lemma exponentialBackoff_clamp (n : N) :
  (2098 <= n)%N ->
  DashSocket.exponentialBackoff n = DashSocket.exponentialBackoff 2098.
Proof.
  intros H. unfold DashSocket.exponentialBackoff. now rewrite pow2_clamp.
Qed.


Lemma option_Z_eqb_eq (a b : option Z) : option_Z_eqb a b = true -> a = b.
Proof.
  destruct a, b; simpl; try discriminate; trivial.
  intros H. apply Z.eqb_eq in H. now subst.
Qed.


Lemma backoff_ms_saturates (n : N) : (4 <= n)%N -> backoff_ms n = 60000%Z.
Proof.
  intros H. unfold backoff_ms. apply Z.min_r.
  assert (2 ^ 4 <= 2 ^ Z.of_N n)%Z by (apply Z.pow_le_mono_r; lia).
  lia.
Qed.

Lemma backoff_ms_mono (a b : N) : (a <= b)%N -> (backoff_ms a <= backoff_ms b)%Z.
Proof.
  intros H. unfold backoff_ms. apply Z.min_le_compat_r.
  assert (2 ^ Z.of_N a <= 2 ^ Z.of_N b)%Z by (apply Z.pow_le_mono_r; lia).
  lia.
Qed.

Lemma exponentialBackoff_small :
  all_below 2099
    (fun n => option_Z_eqb (integer_value (DashSocket.exponentialBackoff n))
                (Some (backoff_ms n))
              && PrimFloat.leb (DashSocket.exponentialBackoff n) 60000) = true.
Proof. vm_compute. reflexivity. Qed.

Lemma exponentialBackoff_value (n : N) :
  integer_value (DashSocket.exponentialBackoff n) = Some (backoff_ms n)
  /\ PrimFloat.leb (DashSocket.exponentialBackoff n) 60000 = true.
Proof.
  assert (Hsmall : forall k, (k < 2099)%N ->
            integer_value (DashSocket.exponentialBackoff k) = Some (backoff_ms k)
            /\ PrimFloat.leb (DashSocket.exponentialBackoff k) 60000 = true).
  { intros k Hk.
    pose proof (all_below_spec 2099 _ exponentialBackoff_small k) as H.
    simpl in H. apply andb_true_iff in H; [|lia].
    destruct H as [H1 H2]. split; [now apply option_Z_eqb_eq|exact H2]. }
  destruct (N.lt_ge_cases n 2098) as [Hlt|Hge].
  - apply Hsmall. lia.
  - rewrite (exponentialBackoff_clamp n Hge).
    rewrite (backoff_ms_saturates n) by lia.
    rewrite <- (backoff_ms_saturates 2098) by lia.
    apply Hsmall. lia.
Qed.

(** C1.  For every attempt count the backoff delay is exactly
    [min (5000 * 2^attempt) 60000] milliseconds; the delay for attempt 0 is
    5000; the delay never decreases as the attempt count grows; and it
    never exceeds 60000. *)
Theorem exponentialBackoff_spec :
  (forall n : N,
      integer_value (DashSocket.exponentialBackoff n)
      = Some (Z.min (5000 * 2 ^ Z.of_N n) 60000))
  /\ DashSocket.exponentialBackoff 0 = 5000%float
  /\ (forall n d : N, exists a b : Z,
         integer_value (DashSocket.exponentialBackoff n) = Some a
         /\ integer_value (DashSocket.exponentialBackoff (n + d)) = Some b
         /\ (a <= b)%Z)
  /\ (forall n : N,
         PrimFloat.leb (DashSocket.exponentialBackoff n)
           DashSocket.MAX_RECONNECT_DELAY = true).
Proof.
  repeat split.
  - intros n. apply exponentialBackoff_value.
  - intros n d. exists (backoff_ms n), (backoff_ms (n + d)).
    repeat split; try apply exponentialBackoff_value.
    apply backoff_ms_mono. lia.
  - intros n. apply exponentialBackoff_value.
Qed.

(** ** The monad *)

Section MonadFacts.

Context {S : Type}.

Lemma exec_bind {A B} (m : M S A) (k : A -> M S B) (s : S) :
  exec (bind m k) s =
  match outcome m s with
  | Normal a => exec (k a) (exec m s)
  | Throw _ => exec m s
  end.
Proof. unfold exec, outcome, bind. destruct (m s) as [[a|e] s']; reflexivity. Qed.

Lemma outcome_bind {A B} (m : M S A) (k : A -> M S B) (s : S) :
  outcome (bind m k) s =
  match outcome m s with
  | Normal a => outcome (k a) (exec m s)
  | Throw e => Throw e
  end.
Proof. unfold exec, outcome, bind. destruct (m s) as [[a|e] s']; reflexivity. Qed.

Lemma exec_try_catch {A} (body : M S A) (handler : error -> M S A) (s : S) :
  exec (try_catch body handler) s =
  match outcome body s with
  | Normal _ => exec body s
  | Throw e => exec (handler e) (exec body s)
  end.
Proof. unfold exec, outcome, try_catch. destruct (body s) as [[a|e] s']; reflexivity. Qed.

Lemma outcome_try_catch {A} (body : M S A) (handler : error -> M S A) (s : S) :
  outcome (try_catch body handler) s =
  match outcome body s with
  | Normal a => Normal a
  | Throw e => outcome (handler e) (exec body s)
  end.
Proof. unfold exec, outcome, try_catch. destruct (body s) as [[a|e] s']; reflexivity. Qed.


Section Keeps.

Context {B : Type} (view : S -> B).

Lemma keeps_ret {A} (a : A) : keeps view (ret a).
Proof. intros s. reflexivity. Qed.

Lemma keeps_throw {A} (e : error) : keeps view (@throw S A e).
Proof. intros s. reflexivity. Qed.

Lemma keeps_lift {A} (c : completion A) : keeps view (lift c).
Proof. intros s. reflexivity. Qed.

Lemma keeps_gets {A} (f : S -> A) : keeps view (gets f).
Proof. intros s. reflexivity. Qed.

Lemma keeps_modify (f : S -> S) :
  (forall s, view (f s) = view s) -> keeps view (modify f).
Proof. intros H s. apply H. Qed.

Lemma keeps_bind {A C} (m : M S A) (k : A -> M S C) :
  keeps view m -> (forall a, keeps view (k a)) -> keeps view (bind m k).
Proof.
  intros Hm Hk s. rewrite exec_bind.
  destruct (outcome m s); [rewrite Hk|]; apply Hm.
Qed.

Lemma keeps_when (b : bool) (m : M S unit) :
  (b = true -> keeps view m) -> keeps view (when b m).
Proof. destruct b; intros H; [now apply H|apply keeps_ret]. Qed.

Lemma keeps_try_catch {A} (body : M S A) (handler : error -> M S A) :
  keeps view body -> (forall e, keeps view (handler e)) ->
  keeps view (try_catch body handler).
Proof.
  intros Hb Hh s. rewrite exec_try_catch.
  destruct (outcome body s); [|rewrite Hh]; apply Hb.
Qed.

Lemma keeps_for_of {A} (xs : list A) (body : A -> M S unit) :
  (forall x, In x xs -> keeps view (body x)) -> keeps view (for_of xs body).
Proof.
  induction xs as [|x xs IH]; intros H.
  - apply keeps_ret.
  - simpl. apply keeps_bind.
    + apply H. now left.
    + intros _. apply IH. intros y Hy. apply H. now right.
Qed.

End Keeps.


Lemma total_try_catch {A} (body : M S A) (handler : error -> M S A) :
  (forall e, total (handler e)) -> total (try_catch body handler).
Proof.
  intros H s. rewrite outcome_try_catch.
  destruct (outcome body s) as [a|e]; [now exists a|apply H].
Qed.

Lemma total_modify (f : S -> S) : total (modify f).
Proof. intros s. now exists tt. Qed.

Lemma total_bind {A B} (m : M S A) (k : A -> M S B) :
  total m -> (forall a, total (k a)) -> total (bind m k).
Proof.
  intros Hm Hk s. rewrite outcome_bind.
  destruct (Hm s) as [a ->]. apply Hk.
Qed.

End MonadFacts.

(** ** Lists of sockets and timers *)



Lemma replace_nth_split {A} (i : nat) (a w : A) (l : list A) :
  nth_error l i = Some w ->
  l = (firstn i l ++ w :: skipn (S i) l)%list
  /\ replace_nth i a l = (firstn i l ++ a :: skipn (S i) l)%list.
Proof.
  revert l. induction i as [|i IH]; intros [|x l] H; try discriminate.
  - injection H as ->. split; reflexivity.
  - simpl in H. destruct (IH l H) as [E1 E2]. split.
    + simpl. f_equal. exact E1.
    + unfold replace_nth in *. simpl. f_equal. exact E2.
Qed.

Lemma count_live_replace (i : nat) (a w : websocket) (l : list websocket) :
  nth_error l i = Some w ->
  (count_live (replace_nth i a l) + (if live w then 1 else 0)
   = count_live l + (if live a then 1 else 0))%nat.
Proof.
  intros H. destruct (replace_nth_split i a w l H) as [E1 E2].
  rewrite E2. rewrite E1 at 3. unfold count_live.
  rewrite !filter_app, !length_app. simpl.
  destruct (live w), (live a); simpl; lia.
Qed.

Lemma count_live_app (l : list websocket) (w : websocket) :
  count_live (l ++ [w])%list = (count_live l + (if live w then 1 else 0))%nat.
Proof.
  unfold count_live. rewrite filter_app, length_app. simpl.
  destruct (live w); reflexivity.
Qed.

Lemma count_pending_clearTimeout (h : option nat) (t : timers) :
  (count_pending (clearTimeout h t) <= count_pending t)%nat.
Proof.
  destruct h as [n|]; unfold count_pending; simpl; [apply filter_length_le|lia].
Qed.

Lemma is_pending_cleared (h : nat) (t : timers) :
  is_pending h (clearTimeout (Some h) t) = false.
Proof.
  unfold is_pending, clearTimeout. cbn.
  induction (pending t) as [|x l IH]; [reflexivity|].
  cbn. destruct (Nat.eqb (handle x) h) eqn:E; cbn; [exact IH|].
  now rewrite E.
Qed.

Lemma count_pending_fired (h : nat) (t : timers) :
  is_pending h t = true -> (count_pending (fired h t) < count_pending t)%nat.
Proof.
  unfold is_pending, count_pending, fired. simpl.
  induction (pending t) as [|x l IH]; simpl; [discriminate|].
  destruct (Nat.eqb (handle x) h); simpl; intros H.
  - pose proof (filter_length_le (fun x0 => negb (Nat.eqb (handle x0) h)) l). lia.
  - apply IH in H. lia.
Qed.

Lemma count_pending_setTimeout (ms : float) (t : timers) :
  count_pending (snd (setTimeout ms t)) = Datatypes.S (count_pending t).
Proof. unfold count_pending. simpl. rewrite length_app. simpl. lia. Qed.

Ltac keeps_step :=
  first
    [ apply keeps_ret
    | apply keeps_lift
    | apply keeps_gets
    | apply keeps_throw
    | apply keeps_modify; intros ?; reflexivity
    | apply keeps_bind; [|intros ?]
    | apply keeps_when; intros ?
    | apply keeps_try_catch; [|intros ?]
    | progress cbv zeta ].

Ltac keeps_auto := repeat keeps_step.

(* ===================================================================== *)
(** * The dashboard stream: connection and reconnection *)
(* ===================================================================== *)

Module DashFacts.

Import DashSocket.


Lemma updateDashboard_keeps_connection (P : platform) (data : value) :
  keeps dash_connection (updateDashboard P data).
Proof.
  unfold updateDashboard, found, write. keeps_auto.
Qed.

Lemma onmessage_keeps_connection (P : platform) (text : string) :
  keeps dash_connection (onmessage P text).
Proof.
  unfold onmessage, console_write.
  apply keeps_try_catch; [|intros ?; keeps_auto].
  apply keeps_bind; [keeps_auto|intros data].
  apply keeps_bind; [keeps_auto|intros _].
  apply updateDashboard_keeps_connection.
Qed.


Lemma balanced_loaded (loc : Browser.location) (d : node -> option string) :
  dash_balanced (DOMContentLoaded loc d).
Proof. unfold dash_balanced. cbn. lia. Qed.

Lemma connectDashSocket_counts (p : page) :
  (count_pending (timers (exec connectDashSocket p)) <= count_pending (timers p))%nat
  /\ count_live (sockets (exec connectDashSocket p)) = Datatypes.S (count_live (sockets p)).
Proof.
  unfold connectDashSocket. cbn -[count_live count_pending]. split.
  - apply count_pending_clearTimeout.
  - rewrite count_live_app. cbn. lia.
Qed.

Lemma onclose_counts (p : page) :
  count_pending (timers (exec onclose p)) = Datatypes.S (count_pending (timers p))
  /\ sockets (exec onclose p) = sockets p.
Proof.
  unfold onclose. cbn -[count_live count_pending]. split; [|reflexivity].
  unfold count_pending. cbn. rewrite length_app. cbn. lia.
Qed.

Lemma onopen_counts (p : page) :
  timers (exec onopen p) = timers p /\ sockets (exec onopen p) = sockets p.
Proof. split; reflexivity. Qed.

Lemma mark_counts (i : nat) (r : readyState) (p : page) (w : websocket) :
  nth_error (sockets p) i = Some w ->
  timers (exec (mark i r) p) = timers p
  /\ (count_live (sockets (exec (mark i r) p)) + (if live w then 1 else 0)
      = count_live (sockets p) + (if live (set_ready r w) then 1 else 0))%nat.
Proof.
  intros H. unfold mark. cbn -[count_live count_pending]. rewrite H.
  cbn -[count_live count_pending]. split; [reflexivity|].
  now apply count_live_replace.
Qed.

Lemma socket_ready_inv (i : nat) (p : page) (r : readyState) :
  socket_ready i p = Some r ->
  exists w, nth_error (sockets p) i = Some w /\ ready w = r.
Proof.
  unfold socket_ready. destruct (nth_error (sockets p) i) as [w|]; [|discriminate].
  cbn. intros H. injection H as <-. now exists w.
Qed.

Lemma beforeunload_counts (p : page) :
  (count_pending (timers (exec beforeunload p)) <= count_pending (timers p))%nat
  /\ count_live (sockets (exec beforeunload p)) = count_live (sockets p).
Proof.
  unfold beforeunload. cbn -[count_live count_pending].
  destruct (dashSocket p) as [i|]; cbn -[count_live count_pending].
  - destruct (nth_error (sockets p) i) as [w|] eqn:E; cbn -[count_live count_pending].
    + split; [apply count_pending_clearTimeout|].
      pose proof (count_live_replace i (websocket_close w) w (sockets p) E) as H.
      assert (live (websocket_close w) = live w).
      { unfold websocket_close, live. destruct (ready w) eqn:R; cbn; rewrite ?R; reflexivity. }
      destruct (live w), (live (websocket_close w)); try discriminate; lia.
    + split; [apply count_pending_clearTimeout|reflexivity].
  - split; [apply count_pending_clearTimeout|reflexivity].
Qed.

Lemma dispatch_balanced (P : platform) (ev : event) (p : page) :
  deliverable ev p = true -> dash_balanced p -> dash_balanced (exec (dispatch P ev) p).
Proof.
  unfold dash_balanced. intros Hev Hb. destruct ev as [i|i text|i|i|h|]; cbn [dispatch].
  - (* Opened *)
    cbn in Hev. destruct (socket_ready i p) as [[]|] eqn:E; try discriminate.
    destruct (socket_ready_inv _ _ _ E) as (w & Hw & Hr).
    destruct (mark_counts i OPEN p w Hw) as [Ht Hc].
    rewrite exec_bind. cbn [outcome mark modify fst].
    destruct (onopen_counts (exec (mark i OPEN) p)) as [Ht' Hs'].
    rewrite Ht', Hs', Ht.
    unfold live in Hc. rewrite Hr in Hc.
    cbn [readyState_eqb negb set_ready ready] in Hc. lia.
  - (* Message *)
    pose proof (onmessage_keeps_connection P text p) as H.
    unfold dash_connection in H. injection H as _ _ Hs Ht. rewrite Hs, Ht. exact Hb.
  - (* Errored *)
    exact Hb.
  - (* Closed *)
    cbn in Hev.
    destruct (socket_ready i p) as [r|] eqn:E; [|discriminate].
    destruct (socket_ready_inv _ _ _ E) as (w & Hw & Hr).
    destruct (mark_counts i CLOSED p w Hw) as [Ht Hc].
    rewrite exec_bind. cbn [outcome mark modify fst].
    destruct (onclose_counts (exec (mark i CLOSED) p)) as [Hp Hs].
    rewrite Hp, Hs, Ht.
    unfold live in Hc. rewrite Hr in Hc.
    destruct r; try discriminate;
      cbn [readyState_eqb negb set_ready ready] in Hc; lia.
  - (* TimerFired *)
    cbn in Hev. rewrite exec_bind. cbn [outcome modify fst].
    set (p1 := exec (modify (fun p0 => set_timers (fired h (timers p0)) p0)) p).
    destruct (connectDashSocket_counts p1) as [Hp Hs].
    pose proof (count_pending_fired h (timers p) Hev) as Hf.
    assert (timers p1 = fired h (timers p)) as Et by reflexivity.
    assert (sockets p1 = sockets p) as Es by reflexivity.
    rewrite Et in Hp. rewrite Es in Hs. lia.
  - (* Unload *)
    destruct (beforeunload_counts p) as [Hp Hs]. lia.
Qed.

Lemma run_balanced (P : platform) (trace : list event) (p p' : page) :
  dash_balanced p -> run P trace p = Some p' -> dash_balanced p'.
Proof.
  revert p. induction trace as [|ev rest IH]; intros p Hb H; cbn in H.
  - now injection H as <-.
  - destruct (deliverable ev p) eqn:E; [|discriminate].
    apply (IH _ (dispatch_balanced P ev p E Hb) H).
Qed.

(** A close event arrives on a socket that has not closed, so no timer
    is pending when it arrives, and one is when its handler returns. *)
Lemma closing_counts (P : platform) (i : nat) (p : page) :
  deliverable (Closed i) p = true -> dash_balanced p ->
  count_pending (timers p) = 0%nat
  /\ count_pending (timers (exec (dispatch P (Closed i)) p)) = 1%nat.
Proof.
  unfold dash_balanced. intros Hev Hb. cbn in Hev. cbn [dispatch].
  destruct (socket_ready i p) as [r|] eqn:E; [|discriminate].
  destruct (socket_ready_inv _ _ _ E) as (w & Hw & Hr).
  destruct (mark_counts i CLOSED p w Hw) as [Ht Hc].
  rewrite exec_bind. cbn [outcome mark modify fst].
  destruct (onclose_counts (exec (mark i CLOSED) p)) as [Hp Hs].
  rewrite Hp, Ht.
  unfold live in Hc. rewrite Hr in Hc.
  destruct r; try discriminate;
    cbn [readyState_eqb negb set_ready ready] in Hc; lia.
Qed.

Lemma stored_loaded (loc : Browser.location) (d : node -> option string) :
  handle_is_stored (DOMContentLoaded loc d).
Proof. constructor. Qed.

Lemma Forall_filter_keeps {A : Type} (Q : A -> Prop) (f : A -> bool) (l : list A) :
  Forall Q l -> Forall Q (filter f l).
Proof.
  induction 1 as [|x l Hx _ IH]; cbn; [constructor|].
  destruct (f x); [now constructor|exact IH].
Qed.

Lemma stored_clearTimeout (p : page) (t : Browser.timers) :
  Forall (fun x => timeout (reconnect p) = Some (handle x)) (pending t) ->
  Forall (fun x => timeout (reconnect p) = Some (handle x))
    (pending (clearTimeout (timeout (reconnect p)) t)).
Proof.
  intros H. destruct (timeout (reconnect p)) as [n|]; cbn; [|exact H].
  now apply Forall_filter_keeps.
Qed.

(** The handle [onclose] stores is the handle of every pending timer, in
    every state the browser's events lead to from such a state. *)
Lemma dispatch_stored (P : platform) (ev : event) (p : page) :
  deliverable ev p = true -> dash_balanced p -> handle_is_stored p ->
  handle_is_stored (exec (dispatch P ev) p).
Proof.
  intros Hev Hb Hs. destruct ev as [i|i text|i|i|h|]; cbn [dispatch].
  - (* Opened *)
    unfold handle_is_stored, mark, onopen, console_write in *. cbn.
    destruct (nth_error (sockets p) i); exact Hs.
  - (* Message *)
    pose proof (onmessage_keeps_connection P text p) as H.
    unfold dash_connection in H. injection H as Hr _ _ Ht.
    unfold handle_is_stored. rewrite Hr, Ht. exact Hs.
  - (* Errored *)
    exact Hs.
  - (* Closed *)
    destruct (closing_counts P i p Hev Hb) as [H0 _].
    unfold count_pending in H0. apply length_zero_iff_nil in H0.
    unfold handle_is_stored, mark, onclose, console_write. cbn.
    destruct (nth_error (sockets p) i); cbn; rewrite H0;
      repeat constructor.
  - (* TimerFired *)
    unfold handle_is_stored, connectDashSocket. cbn.
    apply (stored_clearTimeout p (fired h (timers p))).
    cbn. now apply Forall_filter_keeps.
  - (* Unload *)
    unfold handle_is_stored, beforeunload. cbn.
    destruct (dashSocket p) as [i|]; cbn;
      [destruct (nth_error (sockets p) i); cbn|];
      apply (stored_clearTimeout p (timers p)); exact Hs.
Qed.

Lemma run_stored (P : platform) (trace : list event) (p p' : page) :
  dash_balanced p -> handle_is_stored p -> run P trace p = Some p' ->
  handle_is_stored p'.
Proof.
  revert p. induction trace as [|ev rest IH]; intros p Hb Hs H; cbn in H.
  - now injection H as <-.
  - destruct (deliverable ev p) eqn:E; [|discriminate].
    apply (IH _ (dispatch_balanced P ev p E Hb) (dispatch_stored P ev p E Hb Hs) H).
Qed.

(** With the handles as [onclose] stores them, [connectDashSocket] leaves
    no timer pending. *)
Lemma connectDashSocket_clears (p : page) :
  handle_is_stored p -> pending (timers (exec connectDashSocket p)) = [].
Proof.
  unfold handle_is_stored, connectDashSocket. cbn.
  destruct (timeout (reconnect p)) as [n|]; cbn.
  - induction 1 as [|x l Hx _ IH]; cbn; [reflexivity|].
    injection Hx as ->. now rewrite Nat.eqb_refl.
  - intros H. destruct H as [|x l Hx _]; [reflexivity|discriminate].
Qed.

End DashFacts.

(* ===================================================================== *)
(** * The market intelligence client: what a frame can change *)
(* ===================================================================== *)

Section KeepsMore.

Context {S A C B : Type} (view : S -> B).

(** [keeps_bind], knowing which values the first statement can return. *)
Lemma keeps_bind_result (m : M S A) (k : A -> M S C) :
  keeps view m ->
  (forall a, (exists s, outcome m s = Normal a) -> keeps view (k a)) ->
  keeps view (bind m k).
Proof.
  intros Hm Hk s. rewrite exec_bind.
  destruct (outcome m s) as [a|e] eqn:E; [|apply Hm].
  rewrite (Hk a); [apply Hm|now exists s].
Qed.

End KeepsMore.

Module MIFacts.

Import MarketIntelligence.

Lemma asset_eqb_eq (a b : asset) : asset_eqb a b = true <-> a = b.
Proof. destruct a, b; simpl; split; intros H; try discriminate; reflexivity. Qed.

Lemma asset_eqb_refl (a : asset) : asset_eqb a a = true.
Proof. now apply asset_eqb_eq. Qed.

Lemma own_entry_assetContainers (key : string) (a : asset) :
  own_entry key assetContainers = Some a -> key = asset_key a.
Proof.
  cbn [own_entry assetContainers].
  destruct (String.eqb_spec "forex" key) as [<-|_].
  { intros H. now injection H as <-. }
  destruct (String.eqb_spec "crypto" key) as [<-|_].
  { intros H. now injection H as <-. }
  destruct (String.eqb_spec "stocks" key) as [<-|_].
  { intros H. now injection H as <-. }
  discriminate.
Qed.

(** The container a key leads to is an element only for the element's own
    key. *)
Lemma assetContainers_get_element (key : string) (a : asset) :
  (exists c, outcome (assetContainers_get key) c = Normal (Element a)) ->
  key = asset_key a.
Proof.
  intros [c H]. apply own_entry_assetContainers.
  unfold assetContainers_get, lookup, outcome, bind, gets in H.
  cbn [fst snd] in H.
  destruct (own_entry key assetContainers) as [a'|].
  - destruct (containers c a'); [|discriminate]. now injection H as ->.
  - destruct (inherited key); [discriminate|].
    destruct (String.eqb key "innerHTML"); [|discriminate].
    destruct (builtin_innerHTML c "__proto__"); discriminate.
Qed.

Section Frame.

(** A view of the client that the console, the time stamp and the
    properties of built-in objects do not show, and that shows a container
    only if the container is [watched]. *)
Context {B : Type} (view : client -> B) (watched : asset -> bool).

Hypothesis view_console : forall l c, view (set_console l c) = view c.
Hypothesis view_builtin : forall f c, view (set_builtin_innerHTML f c) = view c.
Hypothesis view_stamp : forall s c, view (set_last_updated_time s c) = view c.
Hypothesis view_container :
  forall a f c, watched a = false ->
    (forall a', asset_eqb a' a = false -> f a' = containers c a') ->
    view (set_containers f c) = view c.

Context (P : platform).

Lemma console_write_keeps (l : level) (msg : string) :
  keeps view (console_write l msg).
Proof. apply keeps_modify. intros c. apply view_console. Qed.

Lemma showToast_keeps (message type : string) : keeps view (showToast message type).
Proof. apply console_write_keeps. Qed.

Lemma lookup_keeps {A} (own : list (string * A)) (key : string) :
  keeps view (lookup own key).
Proof. apply keeps_gets. Qed.

Lemma set_innerHTML_keeps (k : container) (s : string) :
  (forall a, k = Element a -> watched a = false) ->
  keeps view (set_innerHTML k s).
Proof.
  intros Hk. destruct k as [a|name|t|]; cbn [set_innerHTML].
  - apply keeps_modify. intros c. apply (view_container a); [now apply Hk|].
    intros a' Ha. now rewrite Ha.
  - apply keeps_modify. intros c. apply view_builtin.
  - apply keeps_throw.
  - apply keeps_throw.
Qed.

Lemma get_innerHTML_keeps (k : container) : keeps view (get_innerHTML P k).
Proof. destruct k; cbn [get_innerHTML]; keeps_auto. Qed.

Lemma render_narrative_keeps (k : container) (assetClass : string) (n : value) :
  (forall a, k = Element a -> watched a = false) ->
  keeps view (render_narrative P k assetClass n).
Proof.
  intros Hk. unfold render_narrative.
  repeat first
    [ apply keeps_lift
    | apply lookup_keeps
    | apply get_innerHTML_keeps
    | now apply set_innerHTML_keeps
    | apply keeps_bind; [|intros ?]
    | progress cbv zeta ].
Qed.

Lemma forEach_keeps (narratives : value) (callback : value -> M client unit) :
  (forall n, keeps view (callback n)) -> keeps view (forEach narratives callback).
Proof.
  intros H. destruct narratives; cbn [forEach]; try apply keeps_throw.
  apply keeps_for_of. intros x _. apply H.
Qed.

Lemma updateAssetDashboard_keeps (assetClass : string) (narratives : value) :
  (forall a, assetClass = asset_key a -> watched a = false) ->
  keeps view (updateAssetDashboard P assetClass narratives).
Proof.
  intros Hkey. unfold updateAssetDashboard.
  apply keeps_bind_result.
  { unfold assetContainers_get. apply keeps_bind; [apply lookup_keeps|intros ?].
    apply keeps_gets. }
  intros k Hk.
  assert (Hel : forall a, k = Element a -> watched a = false).
  { intros a ->. apply Hkey. now apply assetContainers_get_element. }
  destruct (container_falsy k); [apply keeps_ret|].
  apply keeps_bind; [now apply set_innerHTML_keeps|intros _].
  destruct (truthy narratives && length_positive P narratives).
  - apply forEach_keeps. intros n. now apply render_narrative_keeps.
  - apply keeps_bind; [apply lookup_keeps|intros icon].
    now apply set_innerHTML_keeps.
Qed.

Lemma updateAllAssetDashboards_keeps (payload : value) :
  (forall entries key a,
      Object_entries payload = Normal entries ->
      In key (map fst entries) -> key = asset_key a -> watched a = false) ->
  keeps view (updateAllAssetDashboards P payload).
Proof.
  intros H. unfold updateAllAssetDashboards.
  apply keeps_bind_result; [apply keeps_lift|].
  intros entries [s Hs]. change (Object_entries payload = Normal entries) in Hs.
  apply keeps_for_of. intros [key narratives] Hin.
  apply updateAssetDashboard_keeps. intros a ->.
  apply (H entries (asset_key a) a Hs); [|reflexivity].
  apply in_map_iff. now exists (asset_key a, narratives).
Qed.

Lemma updateLastUpdatedTime_keeps (timestamp : value) :
  keeps view (updateLastUpdatedTime P timestamp).
Proof.
  apply keeps_modify. intros c.
  destruct (last_updated_time c); [apply view_stamp|reflexivity].
Qed.

Lemma handleMessage_keeps (text : string) :
  (forall data payload entries key a,
      parse P text = Normal data -> Get data "data" = Normal payload ->
      Object_entries payload = Normal entries ->
      In key (map fst entries) -> key = asset_key a -> watched a = false) ->
  keeps view (handleMessage P text).
Proof.
  intros H. unfold handleMessage.
  apply keeps_try_catch; [|intros ?; apply console_write_keeps].
  apply keeps_bind_result; [apply keeps_lift|].
  intros data [s Hdata]. change (parse P text = Normal data) in Hdata.
  apply keeps_bind; [apply keeps_lift|intros type].
  destruct (strict_eq_string type "market_intelligence"
            || strict_eq_string type "immediate_update").
  - apply keeps_bind_result; [apply keeps_lift|].
    intros payload [s' Hpayload].
    change (Get data "data" = Normal payload) in Hpayload.
    apply keeps_bind.
    + apply updateAllAssetDashboards_keeps. intros entries key a.
      now apply (H data payload).
    + intros _. apply keeps_bind; [apply keeps_lift|intros ?].
      apply updateLastUpdatedTime_keeps.
  - destruct (strict_eq_string type "preferences_updated");
      [apply showToast_keeps|].
    destruct (strict_eq_string type "error"); [|apply keeps_ret].
    apply keeps_bind; [apply keeps_lift|intros ?]. apply showToast_keeps.
Qed.

End Frame.


Lemma handleMessage_keeps_connection (P : platform) (text : string) :
  keeps mi_connection (handleMessage P text).
Proof.
  apply (handleMessage_keeps mi_connection (fun _ => false)); try reflexivity.
Qed.


Lemma balanced_constructor (loc : Browser.location)
    (regions : asset -> option string) (stamp : option string) :
  mi_balanced (constructor loc regions stamp).
Proof. unfold mi_balanced. cbn. lia. Qed.

Lemma mi_socket_ready_inv (i : nat) (c : client) (r : readyState) :
  socket_ready i c = Some r ->
  exists w, nth_error (sockets c) i = Some w /\ ready w = r.
Proof.
  unfold socket_ready. destruct (nth_error (sockets c) i) as [w|]; [|discriminate].
  cbn. intros H. injection H as <-. now exists w.
Qed.

Lemma mi_mark_counts (i : nat) (r : readyState) (c : client) (w : websocket) :
  nth_error (sockets c) i = Some w ->
  timers (exec (mark i r) c) = timers c
  /\ (count_live (sockets (exec (mark i r) c)) + (if live w then 1 else 0)
      = count_live (sockets c) + (if live (set_ready r w) then 1 else 0))%nat.
Proof.
  intros H. unfold mark. cbn -[count_live count_pending]. rewrite H.
  cbn -[count_live count_pending]. split; [reflexivity|].
  now apply count_live_replace.
Qed.

Lemma handleClose_counts (c : client) :
  count_pending (timers (exec handleClose c)) = Datatypes.S (count_pending (timers c))
  /\ sockets (exec handleClose c) = sockets c.
Proof.
  unfold handleClose. cbn -[count_live count_pending]. split; [|reflexivity].
  unfold count_pending. cbn. rewrite length_app. cbn. lia.
Qed.

Lemma reconnect_counts (c : client) :
  timers (exec reconnect c) = timers c
  /\ count_live (sockets (exec reconnect c)) = Datatypes.S (count_live (sockets c)).
Proof.
  unfold reconnect. cbn -[count_live count_pending]. split; [reflexivity|].
  rewrite count_live_app. cbn. lia.
Qed.

Lemma websocket_send_live (text : string) (w w' : websocket) :
  websocket_send text w = Normal w' -> ready w' = ready w.
Proof.
  unfold websocket_send. destruct (ready w) eqn:R; intros H;
    try discriminate; injection H as <-; cbn; congruence.
Qed.

Lemma socket_send_counts (text : string) (c : client) :
  timers (exec (socket_send text) c) = timers c
  /\ count_live (sockets (exec (socket_send text) c)) = count_live (sockets c).
Proof.
  unfold socket_send, exec.
  destruct (nth_error (sockets c) (socket c)) as [w|] eqn:E; [|now split].
  destruct (websocket_send text w) as [w'|e] eqn:Es; [|now split].
  cbn -[count_live]. split; [reflexivity|].
  pose proof (count_live_replace _ w' w _ E) as H.
  apply websocket_send_live in Es. unfold live in H. rewrite Es in H.
  destruct (negb (readyState_eqb (ready w) CLOSED)); lia.
Qed.

Lemma mi_dispatch_balanced (P : platform) (ev : event) (c : client) :
  deliverable ev c = true -> mi_balanced c -> mi_balanced (exec (dispatch P ev) c).
Proof.
  unfold mi_balanced. intros Hev Hb. destruct ev as [i|i text|i|i|h|]; cbn [dispatch].
  - (* Opened *)
    cbn in Hev. destruct (socket_ready i c) as [[]|] eqn:E; try discriminate.
    destruct (mi_socket_ready_inv _ _ _ E) as (w & Hw & Hr).
    destruct (mi_mark_counts i OPEN c w Hw) as [Ht Hc].
    rewrite Ht. unfold live in Hc. rewrite Hr in Hc.
    cbn [readyState_eqb negb set_ready ready] in Hc. lia.
  - (* Message *)
    pose proof (handleMessage_keeps_connection P text c) as H.
    unfold mi_connection in H. injection H as _ Hs Ht. rewrite Hs, Ht. exact Hb.
  - (* Errored *)
    exact Hb.
  - (* Closed *)
    cbn in Hev.
    destruct (socket_ready i c) as [r|] eqn:E; [|discriminate].
    destruct (mi_socket_ready_inv _ _ _ E) as (w & Hw & Hr).
    destruct (mi_mark_counts i CLOSED c w Hw) as [Ht Hc].
    rewrite exec_bind. cbn [outcome mark modify fst].
    destruct (handleClose_counts (exec (mark i CLOSED) c)) as [Hp Hs].
    rewrite Hp, Hs, Ht.
    unfold live in Hc. rewrite Hr in Hc.
    destruct r; try discriminate;
      cbn [readyState_eqb negb set_ready ready] in Hc; lia.
  - (* TimerFired *)
    cbn in Hev. rewrite exec_bind. cbn [outcome modify fst].
    set (c1 := exec (modify (fun c0 => set_timers (fired h (timers c0)) c0)) c).
    destruct (reconnect_counts c1) as [Hp Hs].
    pose proof (count_pending_fired h (timers c) Hev) as Hf.
    assert (timers c1 = fired h (timers c)) as Et by reflexivity.
    assert (sockets c1 = sockets c) as Es by reflexivity.
    rewrite Hp, Hs, Et, Es. lia.
  - (* RefreshClicked *)
    unfold requestImmediateUpdate.
    destruct (socket_send_counts
                (JSON_stringify P (VObj [("type", VStr "request_update")])) c)
      as [Ht Hs].
    rewrite Ht, Hs. exact Hb.
Qed.

Lemma mi_run_balanced (P : platform) (trace : list event) (c c' : client) :
  mi_balanced c -> run P trace c = Some c' -> mi_balanced c'.
Proof.
  revert c. induction trace as [|ev rest IH]; intros c Hb H; cbn in H.
  - now injection H as <-.
  - destruct (deliverable ev c) eqn:E; [|discriminate].
    apply (IH _ (mi_dispatch_balanced P ev c E Hb) H).
Qed.

Lemma mi_closing_counts (P : platform) (i : nat) (c : client) :
  deliverable (Closed i) c = true -> mi_balanced c ->
  count_pending (timers c) = 0%nat
  /\ count_pending (timers (exec (dispatch P (Closed i)) c)) = 1%nat.
Proof.
  unfold mi_balanced. intros Hev Hb. cbn in Hev. cbn [dispatch].
  destruct (socket_ready i c) as [r|] eqn:E; [|discriminate].
  destruct (mi_socket_ready_inv _ _ _ E) as (w & Hw & Hr).
  destruct (mi_mark_counts i CLOSED c w Hw) as [Ht Hc].
  rewrite exec_bind. cbn [outcome mark modify fst].
  destruct (handleClose_counts (exec (mark i CLOSED) c)) as [Hp Hs].
  rewrite Hp, Ht.
  unfold live in Hc. rewrite Hr in Hc.
  destruct r; try discriminate;
    cbn [readyState_eqb negb set_ready ready] in Hc; lia.
Qed.

End MIFacts.

(* ===================================================================== *)
(** * Reconnection *)
(* ===================================================================== *)

(** The close handlers themselves schedule without clearing: run twice on
    one state they would leave two timers.  The browser does not deliver
    close events so, and [run] rejects the order: a socket closes once. *)
Lemma close_handlers_do_not_cancel :
  count_pending
    (DashSocket.timers
       (exec DashSocket.onclose (exec DashSocket.onclose sample_page))) = 2%nat
  /\ count_pending
       (MarketIntelligence.timers
          (exec MarketIntelligence.handleClose
             (exec MarketIntelligence.handleClose sample_client))) = 2%nat
  /\ DashSocket.run sample_platform [DashSocket.Closed 0; DashSocket.Closed 0]
       sample_page = None
  /\ MarketIntelligence.run sample_platform
       [MarketIntelligence.Closed 0; MarketIntelligence.Closed 0] sample_client
     = None.
Proof. repeat split. Qed.

(** C2.  In every run of the events the browser delivers, however many of
    them are close events and with or without an open between them, at most
    one reconnect timer is pending at any time, in the dashboard client and
    in the market intelligence client.  When a close event arrives no timer
    is pending, and when its handler returns exactly one is.  In the
    dashboard client every pending timer is the one whose handle
    [reconnectState.timeout] holds, [connectDashSocket] leaves no timer
    pending, and in any state at all it cancels the timer whose handle is
    stored before it builds the socket. *)
Theorem reconnect_timers_never_stack
    (P : platform) (loc : Browser.location)
    (d : DashSocket.node -> option string)
    (regions : MarketIntelligence.asset -> option string) (stamp : option string)
    (trace : list DashSocket.event) (trace' : list MarketIntelligence.event)
    (p : DashSocket.page) (c : MarketIntelligence.client) :
  DashSocket.run P trace (DashSocket.DOMContentLoaded loc d) = Some p ->
  MarketIntelligence.run P trace' (MarketIntelligence.constructor loc regions stamp)
    = Some c ->
  (count_pending (DashSocket.timers p) <= 1)%nat
  /\ (count_pending (MarketIntelligence.timers c) <= 1)%nat
  /\ (forall i,
        DashSocket.deliverable (DashSocket.Closed i) p = true ->
        count_pending (DashSocket.timers p) = 0%nat
        /\ count_pending
             (DashSocket.timers (exec (DashSocket.dispatch P (DashSocket.Closed i)) p))
           = 1%nat)
  /\ (forall i,
        MarketIntelligence.deliverable (MarketIntelligence.Closed i) c = true ->
        count_pending (MarketIntelligence.timers c) = 0%nat
        /\ count_pending
             (MarketIntelligence.timers
                (exec (MarketIntelligence.dispatch P (MarketIntelligence.Closed i)) c))
           = 1%nat)
  /\ handle_is_stored p
  /\ pending (DashSocket.timers (exec DashSocket.connectDashSocket p)) = []
  /\ (forall (q : DashSocket.page) (h : nat),
        DashSocket.timeout (DashSocket.reconnect q) = Some h ->
        is_pending h (DashSocket.timers (exec DashSocket.connectDashSocket q))
        = false).
Proof.
  intros Hp Hc.
  pose proof (DashFacts.run_balanced P trace _ p
                (DashFacts.balanced_loaded loc d) Hp) as H1.
  pose proof (MIFacts.mi_run_balanced P trace' _ c
                (MIFacts.balanced_constructor loc regions stamp) Hc) as H2.
  pose proof (DashFacts.run_stored P trace _ p
                (DashFacts.balanced_loaded loc d)
                (DashFacts.stored_loaded loc d) Hp) as H3.
  split; [unfold dash_balanced in H1; lia|].
  split; [unfold mi_balanced in H2; lia|].
  split; [intros i Hi; now apply DashFacts.closing_counts|].
  split; [intros i Hi; now apply MIFacts.mi_closing_counts|].
  split; [exact H3|].
  split; [now apply DashFacts.connectDashSocket_clears|].
  intros q h Hq. unfold DashSocket.connectDashSocket. cbn. rewrite Hq.
  apply is_pending_cleared.
Qed.

Lemma reconnect_timers_never_stack_witness :
  let p :=
    exec (DashSocket.dispatch sample_platform (DashSocket.Closed 2))
      (exec (DashSocket.dispatch sample_platform (DashSocket.TimerFired 2))
         (exec (DashSocket.dispatch sample_platform (DashSocket.Closed 1))
            (exec (DashSocket.dispatch sample_platform (DashSocket.TimerFired 1))
               (exec (DashSocket.dispatch sample_platform (DashSocket.Closed 0))
                  sample_page)))) in
  let c :=
    exec (MarketIntelligence.dispatch sample_platform (MarketIntelligence.Closed 2))
      (exec (MarketIntelligence.dispatch sample_platform
               (MarketIntelligence.TimerFired 2))
         (exec (MarketIntelligence.dispatch sample_platform
                  (MarketIntelligence.Closed 1))
            (exec (MarketIntelligence.dispatch sample_platform
                     (MarketIntelligence.TimerFired 1))
               (exec (MarketIntelligence.dispatch sample_platform
                        (MarketIntelligence.Closed 0))
                  sample_client)))) in
  (count_pending (DashSocket.timers p) <= 1)%nat
  /\ (count_pending (MarketIntelligence.timers c) <= 1)%nat
  /\ (forall i,
        DashSocket.deliverable (DashSocket.Closed i) p = true ->
        count_pending (DashSocket.timers p) = 0%nat
        /\ count_pending
             (DashSocket.timers
                (exec (DashSocket.dispatch sample_platform (DashSocket.Closed i)) p))
           = 1%nat)
  /\ (forall i,
        MarketIntelligence.deliverable (MarketIntelligence.Closed i) c = true ->
        count_pending (MarketIntelligence.timers c) = 0%nat
        /\ count_pending
             (MarketIntelligence.timers
                (exec (MarketIntelligence.dispatch sample_platform
                         (MarketIntelligence.Closed i)) c))
           = 1%nat)
  /\ handle_is_stored p
  /\ pending (DashSocket.timers (exec DashSocket.connectDashSocket p)) = []
  /\ (forall (q : DashSocket.page) (h : nat),
        DashSocket.timeout (DashSocket.reconnect q) = Some h ->
        is_pending h (DashSocket.timers (exec DashSocket.connectDashSocket q))
        = false).
Proof.
  cbv zeta.
  apply (reconnect_timers_never_stack sample_platform sample_location
           sample_document sample_regions (Some "-")
           [DashSocket.Closed 0; DashSocket.TimerFired 1; DashSocket.Closed 1;
            DashSocket.TimerFired 2; DashSocket.Closed 2]
           [MarketIntelligence.Closed 0; MarketIntelligence.TimerFired 1;
            MarketIntelligence.Closed 1; MarketIntelligence.TimerFired 2;
            MarketIntelligence.Closed 2]);
    vm_compute; reflexivity.
Defined.

(** C3.  A successful open resets the attempt count to 0; the close that
    follows counts the attempt before it asks for the delay, so the timer
    it schedules waits [exponentialBackoff 1], which is 10000 milliseconds
    and not the 5000 of attempt 0. *)
Theorem close_after_open_waits_for_attempt_one (p : DashSocket.page) :
  let opened := exec DashSocket.onopen p in
  let closed := exec DashSocket.onclose opened in
  DashSocket.attempts (DashSocket.reconnect opened) = 0%N
  /\ pending (DashSocket.timers closed)
     = (pending (DashSocket.timers p)
        ++ [{| handle := next_handle (DashSocket.timers p);
               delay := DashSocket.exponentialBackoff 1 |}])%list
  /\ DashSocket.timeout (DashSocket.reconnect closed)
     = Some (next_handle (DashSocket.timers p))
  /\ integer_value (DashSocket.exponentialBackoff 1) = Some 10000%Z
  /\ integer_value (DashSocket.exponentialBackoff 0) = Some 5000%Z.
Proof. cbv zeta. repeat split. Qed.

(** C4.  On a page served over https the market intelligence client and
    the template script still build a plain [ws://] URL; the dashboard
    client builds [wss://] there and [ws://] on a plain page. *)
Theorem market_intelligence_url_is_always_plain (h : string) :
  let secure := {| protocol := "https:"; host := h |} in
  let plain := {| protocol := "http:"; host := h |} in
  url (nth 0 (MarketIntelligence.sockets
                (MarketIntelligence.constructor secure sample_regions None))
         (new_websocket ""))
  = "ws://" ++ h ++ "/ws/market-intelligence/"
  /\ Template.socket_url secure = "ws://" ++ h ++ "/ws/dashboard/"
  /\ DashSocket.wsUrl secure = "wss://" ++ h ++ "/ws/dashboard/"
  /\ DashSocket.wsUrl plain = "ws://" ++ h ++ "/ws/dashboard/".
Proof. cbv zeta. repeat split. Qed.

(* ===================================================================== *)
(** * Commands and frames *)
(* ===================================================================== *)

Lemma exec_bind_lift {S A B} (c : completion A) (k : A -> M S B) (s : S) :
  exec (bind (lift c) k) s =
  match c with
  | Normal a => exec (k a) s
  | Throw _ => s
  end.
Proof. now destruct c. Qed.

Lemma outcome_bind_lift {S A B} (c : completion A) (k : A -> M S B) (s : S) :
  outcome (bind (lift c) k) s =
  match c with
  | Normal a => outcome (k a) s
  | Throw e => Throw e
  end.
Proof. now destruct c. Qed.

Lemma total_unit {S : Type} (m : M S unit) (s : S) :
  total m -> outcome m s = Normal tt.
Proof. intros H. destruct (H s) as [[] E]. exact E. Qed.

Lemma replace_nth_same {A} (i : nat) (w : A) (l : list A) :
  nth_error l i = Some w -> replace_nth i w l = l.
Proof.
  intros H. destruct (replace_nth_split i w w l H) as [E1 E2]. congruence.
Qed.

Lemma socket_send_not_open (text : string) (c : MarketIntelligence.client)
    (w : websocket) :
  nth_error (MarketIntelligence.sockets c) (MarketIntelligence.socket c) = Some w ->
  ready w <> OPEN ->
  MarketIntelligence.socket_send text c
  = (if readyState_eqb (ready w) CONNECTING then Throw InvalidStateError
     else Normal tt, c).
Proof.
  intros Hw Hr. unfold MarketIntelligence.socket_send. rewrite Hw.
  unfold websocket_send.
  destruct (ready w) eqn:R; cbn [readyState_eqb]; try reflexivity.
  - now elim Hr.
  - rewrite (replace_nth_same _ _ _ Hw). now destruct c.
  - rewrite (replace_nth_same _ _ _ Hw). now destruct c.
Qed.

(** C5, as stated, fails: a command issued while the socket is still
    connecting throws. *)
Lemma requestImmediateUpdate_throws_while_connecting :
  outcome (MarketIntelligence.requestImmediateUpdate sample_platform) sample_client
  = Throw InvalidStateError.
Proof. reflexivity. Qed.

(** C5, amended.  When the socket is not open, [requestImmediateUpdate]
    and [updatePreferences] leave the instance, its socket and the widgets
    as they were and put nothing on the wire; they return normally when the
    socket is closing or closed, and throw an InvalidStateError to their
    caller when it is still connecting. *)
Theorem commands_when_the_socket_is_not_open
    (P : platform) (c : MarketIntelligence.client) (w : websocket)
    (preferences : value) :
  nth_error (MarketIntelligence.sockets c) (MarketIntelligence.socket c) = Some w ->
  ready w <> OPEN ->
  let result :=
    if readyState_eqb (ready w) CONNECTING then Throw InvalidStateError
    else Normal tt in
  MarketIntelligence.requestImmediateUpdate P c = (result, c)
  /\ MarketIntelligence.updatePreferences P preferences c = (result, c).
Proof.
  intros Hw Hr. cbv zeta.
  unfold MarketIntelligence.requestImmediateUpdate,
    MarketIntelligence.updatePreferences.
  split; now apply socket_send_not_open.
Qed.

Lemma commands_when_the_socket_is_not_open_witness :
  MarketIntelligence.requestImmediateUpdate sample_platform
    (exec (MarketIntelligence.mark 0 CLOSED) sample_client)
  = (Normal tt, exec (MarketIntelligence.mark 0 CLOSED) sample_client)
  /\ MarketIntelligence.updatePreferences sample_platform (VObj [])
       (exec (MarketIntelligence.mark 0 CLOSED) sample_client)
     = (Normal tt, exec (MarketIntelligence.mark 0 CLOSED) sample_client).
Proof.
  apply (commands_when_the_socket_is_not_open sample_platform
           (exec (MarketIntelligence.mark 0 CLOSED) sample_client)
           (set_ready CLOSED (new_websocket
              (MarketIntelligence.socket_url sample_location)))).
  - reflexivity.
  - discriminate.
Defined.

(** ** The template script *)

Lemma assign_keeps (n n0 : Template.node) (s : string) :
  Template.node_eqb n0 n = false ->
  keeps (fun d : Template.document => d n0) (Template.assign n s).
Proof.
  intros H d. unfold exec, Template.assign.
  destruct (d n); cbn; [now rewrite H|reflexivity].
Qed.

(** C6.  The template's [onmessage] assigns every widget on every frame:
    whenever the market status element exists, a frame that carries only
    [volatility_index] replaces its text with "undefined". *)
Theorem template_onmessage_overwrites_absent_fields
    (P : platform) (text : string) (d : Template.document) :
  parse P text = Normal (VObj [("volatility_index", VNum 18.4)]) ->
  exec (Template.onmessage P text) d Template.market_status_value
  = option_map (fun _ => "undefined") (d Template.market_status_value).
Proof.
  intros H. unfold Template.onmessage.
  rewrite exec_bind_lift, H.
  rewrite exec_bind_lift.
  rewrite (eq_refl : Get (VObj [("volatility_index", VNum 18.4)]) "market_status"
                     = Normal VUndefined).
  rewrite exec_bind.
  assert (Hout : outcome (Template.assign Template.market_status_value
                            (Template.DOMString P VUndefined)) d
                 = match d Template.market_status_value with
                   | Some _ => Normal tt
                   | None => Throw TypeError
                   end).
  { unfold outcome, Template.assign.
    now destruct (d Template.market_status_value). }
  assert (Hex : exec (Template.assign Template.market_status_value
                        (Template.DOMString P VUndefined)) d
                  Template.market_status_value
                = option_map (fun _ => "undefined") (d Template.market_status_value)).
  { unfold exec, Template.assign.
    destruct (d Template.market_status_value) eqn:E; cbn; [reflexivity|exact E]. }
  rewrite Hout.
  destruct (d Template.market_status_value) as [old|] eqn:E; [|now rewrite Hex].
  match goal with
  | |- exec ?m _ _ = _ =>
      assert (Hk : keeps (fun d : Template.document => d Template.market_status_value) m)
  end.
  { repeat first
      [ apply keeps_lift
      | apply assign_keeps; reflexivity
      | apply keeps_bind; [|intros ?]
      | progress cbv zeta ]. }
  rewrite Hk. exact Hex.
Qed.

Lemma template_onmessage_overwrites_absent_fields_witness :
  exec (Template.onmessage sample_platform "volatility only") (fun _ => Some "Open")
    Template.market_status_value
  = Some "undefined".
Proof.
  apply (template_onmessage_overwrites_absent_fields sample_platform
           "volatility only" (fun _ => Some "Open")).
  reflexivity.
Defined.

(** ** Dispatch *)

Lemma dash_onmessage_total (P : platform) (text : string) :
  total (DashSocket.onmessage P text).
Proof.
  apply total_try_catch. intros e. apply total_modify.
Qed.

Lemma handleMessage_total (P : platform) (text : string) :
  total (MarketIntelligence.handleMessage P text).
Proof.
  apply total_try_catch. intros e. apply total_modify.
Qed.

Lemma dash_onmessage_bad_text (P : platform) (text : string) (p : DashSocket.page) :
  JSON_parse P text = None ->
  exec (DashSocket.onmessage P text) p
  = DashSocket.set_console
      (DashSocket.console p ++ [(Error, "[DASH] Error parsing message:")]) p.
Proof.
  intros H. unfold DashSocket.onmessage.
  rewrite exec_try_catch, outcome_bind_lift, exec_bind_lift.
  unfold parse. rewrite H. reflexivity.
Qed.

Lemma handleMessage_bad_text (P : platform) (text : string)
    (c : MarketIntelligence.client) :
  JSON_parse P text = None ->
  exec (MarketIntelligence.handleMessage P text) c
  = MarketIntelligence.set_console
      (MarketIntelligence.console c ++ [(Error, "Error parsing WebSocket message:")]) c.
Proof.
  intros H. unfold MarketIntelligence.handleMessage.
  rewrite exec_try_catch, outcome_bind_lift, exec_bind_lift.
  unfold parse. rewrite H. reflexivity.
Qed.

(** C7, as stated, fails for frames that parse but do not match the
    schema: what was rendered before the failure stays rendered.  A
    market intelligence frame whose forex list holds [null] leaves the
    forex container empty, and a dashboard frame whose volatility index is
    a string still replaces the market status. *)
Lemma schema_mismatch_changes_widgets :
  MarketIntelligence.containers sample_client MarketIntelligence.forex
  = Some "<p>earlier</p>"
  /\ MarketIntelligence.containers
       (exec (MarketIntelligence.handleMessage sample_platform "null narrative")
          sample_client) MarketIntelligence.forex
     = Some ""
  /\ DashSocket.dom sample_page DashSocket.market_status_value = Some "-"
  /\ DashSocket.dom
       (exec (DashSocket.onmessage sample_platform "status then text") sample_page)
       DashSocket.market_status_value
     = Some "Open".
Proof. repeat split. Qed.

(** C7, amended.  Neither dispatcher ever throws to its caller, and
    neither changes the connection (socket, timers, attempt count),
    whatever the text.  Text that is not JSON changes no widget at all: the
    only effect is one line on the console. *)
Theorem dispatch_contains_its_failures
    (P : platform) (text : string)
    (p : DashSocket.page) (c : MarketIntelligence.client) :
  (outcome (DashSocket.onmessage P text) p = Normal tt
   /\ dash_connection (exec (DashSocket.onmessage P text) p)
      = dash_connection p
   /\ outcome (MarketIntelligence.handleMessage P text) c = Normal tt
   /\ mi_connection (exec (MarketIntelligence.handleMessage P text) c)
      = mi_connection c)
  /\ (JSON_parse P text = None ->
      DashSocket.dom (exec (DashSocket.onmessage P text) p) = DashSocket.dom p
      /\ MarketIntelligence.containers
           (exec (MarketIntelligence.handleMessage P text) c)
         = MarketIntelligence.containers c
      /\ MarketIntelligence.last_updated_time
           (exec (MarketIntelligence.handleMessage P text) c)
         = MarketIntelligence.last_updated_time c).
Proof.
  split; [repeat split|].
  - apply total_unit, dash_onmessage_total.
  - apply DashFacts.onmessage_keeps_connection.
  - apply total_unit, handleMessage_total.
  - apply MIFacts.handleMessage_keeps_connection.
  - intros H. rewrite (dash_onmessage_bad_text P text p H).
    rewrite (handleMessage_bad_text P text c H). repeat split.
Qed.

Lemma dispatch_contains_its_failures_witness :
  DashSocket.dom (exec (DashSocket.onmessage sample_platform "{not json") sample_page)
  = DashSocket.dom sample_page
  /\ MarketIntelligence.containers
       (exec (MarketIntelligence.handleMessage sample_platform "{not json")
          sample_client)
     = MarketIntelligence.containers sample_client
  /\ MarketIntelligence.last_updated_time
       (exec (MarketIntelligence.handleMessage sample_platform "{not json")
          sample_client)
     = MarketIntelligence.last_updated_time sample_client.
Proof.
  apply (dispatch_contains_its_failures sample_platform "{not json"
           sample_page sample_client).
  reflexivity.
Defined.

(** C9.  A frame whose [type] is none of [market_intelligence],
    [immediate_update], [preferences_updated] and [error] leaves the
    instance exactly as it was: no container, time stamp, socket or timer
    changes, nothing is written to the console (no toast, no error), and
    the handler returns normally. *)
Theorem unrecognized_type_is_ignored
    (P : platform) (text : string) (data type : value)
    (c : MarketIntelligence.client) :
  parse P text = Normal data ->
  Get data "type" = Normal type ->
  strict_eq_string type "market_intelligence" = false ->
  strict_eq_string type "immediate_update" = false ->
  strict_eq_string type "preferences_updated" = false ->
  strict_eq_string type "error" = false ->
  MarketIntelligence.handleMessage P text c = (Normal tt, c).
Proof.
  intros Hdata Htype H1 H2 H3 H4.
  unfold MarketIntelligence.handleMessage, try_catch, bind, lift.
  rewrite Hdata, Htype, H1, H2, H3, H4. reflexivity.
Qed.

Lemma unrecognized_type_is_ignored_witness :
  MarketIntelligence.handleMessage sample_platform "unknown type" sample_client
  = (Normal tt, sample_client).
Proof.
  apply (unrecognized_type_is_ignored sample_platform "unknown type"
           (VObj [("type", VStr "heartbeat"); ("data", VObj [])])
           (VStr "heartbeat") sample_client); reflexivity.
Defined.

(** ** Which containers a payload reaches *)


Lemma asset_eqb_sym (a b : MarketIntelligence.asset) :
  MarketIntelligence.asset_eqb a b = MarketIntelligence.asset_eqb b a.
Proof. now destruct a, b. Qed.

(** A key other than [forex], [crypto] and [stocks] changes no
    container, whatever comes with it and however the call ends; and a
    container whose key the payload does not list keeps its markup through
    [updateAllAssetDashboards]. *)
Theorem only_listed_asset_keys_render
    (P : platform) (key : string) (narratives payload : value)
    (a : MarketIntelligence.asset) (c : MarketIntelligence.client) :
  (forall a', key <> MarketIntelligence.asset_key a') ->
  ~ In (MarketIntelligence.asset_key a) (payload_keys payload) ->
  MarketIntelligence.containers
    (exec (MarketIntelligence.updateAssetDashboard P key narratives) c)
  = MarketIntelligence.containers c
  /\ MarketIntelligence.containers
       (exec (MarketIntelligence.updateAllAssetDashboards P payload) c) a
     = MarketIntelligence.containers c a.
Proof.
  intros Hkey Habsent. split.
  - apply (MIFacts.updateAssetDashboard_keeps MarketIntelligence.containers
             (fun _ => true)); try reflexivity.
    + intros a0 f c0 Hw. discriminate.
    + intros a0 Ha0. now elim (Hkey a0).
  - apply (MIFacts.updateAllAssetDashboards_keeps
             (fun c0 => MarketIntelligence.containers c0 a)
             (fun a' => MarketIntelligence.asset_eqb a' a)); try reflexivity.
    + intros a0 f c0 Hw Hf. apply Hf. now rewrite asset_eqb_sym.
    + intros entries k a0 He Hin ->.
      destruct (MarketIntelligence.asset_eqb a0 a) eqn:E; [|reflexivity].
      apply MIFacts.asset_eqb_eq in E. subst a0.
      elim Habsent. unfold payload_keys. now rewrite He.
Qed.

Lemma only_listed_asset_keys_render_witness :
  MarketIntelligence.containers
    (exec (MarketIntelligence.updateAssetDashboard sample_platform "bonds"
             (VArr [])) sample_client)
  = MarketIntelligence.containers sample_client
  /\ MarketIntelligence.containers
       (exec (MarketIntelligence.updateAllAssetDashboards sample_platform
                (VObj [("forex", VArr [])])) sample_client)
       MarketIntelligence.crypto
     = MarketIntelligence.containers sample_client MarketIntelligence.crypto.
Proof.
  apply (only_listed_asset_keys_render sample_platform "bonds" (VArr [])
           (VObj [("forex", VArr [])]) MarketIntelligence.crypto sample_client).
  - intros [] H; discriminate H.
  - cbn. intros [H|[]]. discriminate H.
Defined.

(** A key that is no own property of [assetContainers], that object
    literals do not inherit, and that is not [innerHTML], is skipped: the
    call returns at [if (!container) return] and the instance is as it
    was. *)
Theorem unknown_asset_key_is_skipped
    (P : platform) (key : string) (narratives : value)
    (c : MarketIntelligence.client) :
  (forall a, key <> MarketIntelligence.asset_key a) ->
  inherited key = false ->
  key <> "innerHTML" ->
  MarketIntelligence.updateAssetDashboard P key narratives c = (Normal tt, c).
Proof.
  intros Hkey Hin Hne.
  unfold MarketIntelligence.updateAssetDashboard,
    MarketIntelligence.assetContainers_get, MarketIntelligence.lookup, bind, gets.
  destruct (MarketIntelligence.own_entry key MarketIntelligence.assetContainers)
    as [a|] eqn:E.
  { apply MIFacts.own_entry_assetContainers in E. now elim (Hkey a). }
  rewrite Hin.
  destruct (String.eqb_spec key "innerHTML") as [->|_]; [now elim Hne|].
  reflexivity.
Qed.

Lemma unknown_asset_key_is_skipped_witness :
  MarketIntelligence.updateAssetDashboard sample_platform "bonds"
    (VArr [Narrative.to_value hold_narrative]) sample_client
  = (Normal tt, sample_client).
Proof.
  apply (unknown_asset_key_is_skipped sample_platform "bonds"
           (VArr [Narrative.to_value hold_narrative]) sample_client).
  - intros [] H; discriminate H.
  - reflexivity.
  - intros H; discriminate H.
Defined.

(** One of the three keys on a page that lacks its container
    ([getElementById] gave [null]) is skipped as well. *)
Theorem missing_container_is_skipped
    (P : platform) (a : MarketIntelligence.asset) (narratives : value)
    (c : MarketIntelligence.client) :
  MarketIntelligence.containers c a = None ->
  MarketIntelligence.updateAssetDashboard P (MarketIntelligence.asset_key a)
    narratives c
  = (Normal tt, c).
Proof.
  intros H.
  unfold MarketIntelligence.updateAssetDashboard,
    MarketIntelligence.assetContainers_get, MarketIntelligence.lookup, bind, gets.
  destruct a; cbn; now rewrite H.
Qed.

Lemma missing_container_is_skipped_witness :
  MarketIntelligence.updateAssetDashboard sample_platform "stocks"
    (VArr [Narrative.to_value hold_narrative])
    (MarketIntelligence.constructor sample_location (fun _ => None) (Some "-"))
  = (Normal tt,
     MarketIntelligence.constructor sample_location (fun _ => None) (Some "-")).
Proof.
  apply (missing_container_is_skipped sample_platform MarketIntelligence.stocks
           (VArr [Narrative.to_value hold_narrative])
           (MarketIntelligence.constructor sample_location (fun _ => None)
              (Some "-"))).
  reflexivity.
Defined.

(** C10.  A key that object literals inherit is not skipped.  For the
    payload [{"toString": "x", "forex": []}] the lookup
    [this.assetContainers["toString"]] gives the function every object
    inherits, which passes [if (!container) return]; the call writes the
    function's [innerHTML] and then throws at ["x".forEach].  The loop over
    the payload ends there: the [forex] container, whose key the payload
    lists, is not rendered, although the payload without the inherited key
    renders it; [handleMessage] catches, logs an error and leaves the time
    stamp as it was. *)
Theorem inherited_asset_key_aborts_the_update
    (text : string) (c : MarketIntelligence.client) :
  let payload := VObj [("toString", VStr "x"); ("forex", VArr [])] in
  let frame :=
    VObj [("type", VStr "market_intelligence");
          ("data", payload);
          ("timestamp", VStr "2024-01-01T00:00:00Z")] in
  let P := frame_platform frame in
  let c' := exec (MarketIntelligence.handleMessage P text) c in
  payload_keys payload = ["toString"; "forex"]
  /\ (forall a, "toString" <> MarketIntelligence.asset_key a)
  /\ MarketIntelligence.updateAssetDashboard P "toString" (VStr "x") c
     = (Throw TypeError,
        MarketIntelligence.set_builtin_innerHTML
          (fun n => if String.eqb n "toString" then Some ""
                    else MarketIntelligence.builtin_innerHTML c n) c)
  /\ MarketIntelligence.updateAllAssetDashboards P payload c
     = MarketIntelligence.updateAssetDashboard P "toString" (VStr "x") c
  /\ outcome (MarketIntelligence.handleMessage P text) c = Normal tt
  /\ MarketIntelligence.console c'
     = (MarketIntelligence.console c
        ++ [(Error, "Error parsing WebSocket message:")])%list
  /\ MarketIntelligence.containers c' = MarketIntelligence.containers c
  /\ MarketIntelligence.last_updated_time c' = MarketIntelligence.last_updated_time c
  /\ MarketIntelligence.containers
       (exec (MarketIntelligence.updateAllAssetDashboards P payload) sample_client)
       MarketIntelligence.forex
     = Some "<p>earlier</p>"
  /\ MarketIntelligence.containers
       (exec (MarketIntelligence.updateAllAssetDashboards P
                (VObj [("forex", VArr [])])) sample_client)
       MarketIntelligence.forex
     = Some (MarketIntelligence.no_data P
               (MarketIntelligence.Own "bi-currency-exchange") "forex").
Proof.
  cbv zeta. repeat split.
  intros [] H; discriminate H.
Qed.

(* ===================================================================== *)
(** * Rendering a list of narratives *)
(* ===================================================================== *)

Lemma render_narrative_step (P : platform) (a : MarketIntelligence.asset)
    (n : Narrative.t) (html : string) (c : MarketIntelligence.client) :
  MarketIntelligence.containers c a = Some html ->
  MarketIntelligence.render_narrative P (MarketIntelligence.Element a)
    (MarketIntelligence.asset_key a) (Narrative.to_value n) c
  = (Normal tt,
     MarketIntelligence.set_containers
       (fun a' => if MarketIntelligence.asset_eqb a' a
                  then Some (MarketIntelligence.element_innerHTML P html
                             ++ Render.entry P c a n)
                  else MarketIntelligence.containers c a') c).
Proof.
  intros H. unfold MarketIntelligence.render_narrative, Render.entry, Render.alertClass.
  destruct a;
    cbn -[MarketIntelligence.narrativeElement Number_toFixed append
          MarketIntelligence.element_innerHTML];
    rewrite H; reflexivity.
Qed.

Lemma append_empty_r (s : string) : s ++ "" = s.
Proof. induction s as [|ch s IH]; simpl; [reflexivity|now rewrite IH]. Qed.

Lemma append_associative (s t u : string) : (s ++ t) ++ u = s ++ (t ++ u).
Proof. induction s as [|ch s IH]; simpl; [reflexivity|now rewrite IH]. Qed.

Lemma entry_same_builtins (P : platform) (c c' : MarketIntelligence.client)
    (a : MarketIntelligence.asset) (n : Narrative.t) :
  MarketIntelligence.builtin_innerHTML c' = MarketIntelligence.builtin_innerHTML c ->
  Render.entry P c' a n = Render.entry P c a n.
Proof.
  intros H. unfold Render.entry, Render.alertClass, MarketIntelligence.lookup,
    outcome, gets. cbn [fst]. now rewrite H.
Qed.

Lemma differs_at_refl (a : MarketIntelligence.asset) (html : string)
    (c : MarketIntelligence.client) :
  MarketIntelligence.containers c a = Some html -> Render.differs_at a html c c.
Proof. intros H. unfold Render.differs_at. repeat split; auto. Qed.

Lemma differs_at_write (a : MarketIntelligence.asset) (html : string)
    (c : MarketIntelligence.client) :
  Render.differs_at a html c
    (MarketIntelligence.set_containers
       (fun a' => if MarketIntelligence.asset_eqb a' a then Some html
                  else MarketIntelligence.containers c a') c).
Proof.
  unfold Render.differs_at. cbn. rewrite MIFacts.asset_eqb_refl.
  repeat split; auto. intros a' H. now rewrite H.
Qed.

Lemma differs_at_trans (a : MarketIntelligence.asset) (h1 h2 : string)
    (c c1 c2 : MarketIntelligence.client) :
  Render.differs_at a h1 c c1 -> Render.differs_at a h2 c1 c2 ->
  Render.differs_at a h2 c c2.
Proof.
  unfold Render.differs_at.
  intros (A1 & A2 & A3 & A4 & A5 & A6 & A7 & A8 & A9)
         (B1 & B2 & B3 & B4 & B5 & B6 & B7 & B8 & B9).
  repeat split; try congruence.
  intros a' H. rewrite (B9 a' H). now apply A9.
Qed.

(** The [forEach] loop appends one entry per narrative, in order, each
    to what the container reads as by then. *)
Lemma render_loop (P : platform) (a : MarketIntelligence.asset)
    (ns : list Narrative.t) :
  forall (html : string) (c0 c : MarketIntelligence.client),
    MarketIntelligence.builtin_innerHTML c = MarketIntelligence.builtin_innerHTML c0 ->
    MarketIntelligence.containers c a = Some html ->
    exists c',
      for_of (map Narrative.to_value ns)
        (MarketIntelligence.render_narrative P (MarketIntelligence.Element a)
           (MarketIntelligence.asset_key a)) c
      = (Normal tt, c')
      /\ Render.differs_at a
           (Render.appended P html (map (Render.entry P c0 a) ns)) c c'.
Proof.
  induction ns as [|n rest IH]; intros html c0 c Hb H.
  - exists c. split; [reflexivity|]. now apply differs_at_refl.
  - cbn [map for_of]. unfold bind at 1.
    rewrite (render_narrative_step P a n html c H).
    set (c1 := MarketIntelligence.set_containers _ c).
    assert (H1 : MarketIntelligence.containers c1 a
                 = Some (MarketIntelligence.element_innerHTML P html
                         ++ Render.entry P c a n)).
    { unfold c1. cbn. now rewrite MIFacts.asset_eqb_refl. }
    destruct (IH _ c0 c1 Hb H1) as (c' & Hrun & Hd).
    exists c'. split; [exact Hrun|].
    unfold Render.appended. cbn [fold_left].
    rewrite <- (entry_same_builtins P c0 c a n Hb).
    eapply differs_at_trans; [apply differs_at_write|exact Hd].
Qed.

Lemma assetContainers_get_own (a : MarketIntelligence.asset) (html : string)
    (c : MarketIntelligence.client) :
  MarketIntelligence.containers c a = Some html ->
  MarketIntelligence.assetContainers_get (MarketIntelligence.asset_key a) c
  = (Normal (MarketIntelligence.Element a), c).
Proof.
  intros H. unfold MarketIntelligence.assetContainers_get, bind,
    MarketIntelligence.lookup, gets.
  destruct a; cbn; now rewrite H.
Qed.

Lemma render_result (P : platform) (a : MarketIntelligence.asset)
    (ns : list Narrative.t) (old : string) (c : MarketIntelligence.client) :
  MarketIntelligence.containers c a = Some old ->
  exists c',
    MarketIntelligence.updateAssetDashboard P (MarketIntelligence.asset_key a)
      (VArr (map Narrative.to_value ns)) c
    = (Normal tt, c')
    /\ Render.differs_at a
         (match ns with
          | [] => MarketIntelligence.no_data P (MarketIntelligence.Own (Render.icon a))
                    (MarketIntelligence.asset_key a)
          | _ :: _ => Render.appended P "" (map (Render.entry P c a) ns)
          end) c c'.
Proof.
  intros H. unfold MarketIntelligence.updateAssetDashboard.
  unfold bind at 1. rewrite (assetContainers_get_own a old c H).
  cbn [MarketIntelligence.container_falsy].
  unfold bind at 1. cbn [MarketIntelligence.set_innerHTML modify].
  set (c0 := MarketIntelligence.set_containers _ c).
  assert (H0 : MarketIntelligence.containers c0 a = Some "").
  { unfold c0. cbn. now rewrite MIFacts.asset_eqb_refl. }
  assert (D0 : Render.differs_at a "" c c0) by apply differs_at_write.
  destruct ns as [|n rest].
  - cbn [map truthy length_positive andb].
    exists (MarketIntelligence.set_containers
              (fun a' => if MarketIntelligence.asset_eqb a' a
                         then Some (MarketIntelligence.no_data P
                                      (MarketIntelligence.Own (Render.icon a))
                                      (MarketIntelligence.asset_key a))
                         else MarketIntelligence.containers c0 a') c0).
    split.
    + unfold bind, MarketIntelligence.lookup, gets. now destruct a.
    + eapply differs_at_trans; [exact D0|apply differs_at_write].
  - cbn [map truthy length_positive andb MarketIntelligence.forEach].
    destruct (render_loop P a (n :: rest) "" c c0 eq_refl H0) as (c' & Hrun & Hd).
    exists c'. split; [exact Hrun|].
    eapply differs_at_trans; [exact D0|exact Hd].
Qed.

(** [this.priorityClasses[priority] || 'alert-secondary'], case by case. *)
Lemma alertClass_cases (c : MarketIntelligence.client) :
  Render.alertClass c "high" = MarketIntelligence.Own "alert-danger"
  /\ Render.alertClass c "medium" = MarketIntelligence.Own "alert-warning"
  /\ Render.alertClass c "low" = MarketIntelligence.Own "alert-info"
  /\ (forall p,
        MarketIntelligence.own_entry p MarketIntelligence.priorityClasses = None ->
        inherited p = false ->
        p <> "innerHTML" ->
        Render.alertClass c p = MarketIntelligence.Own "alert-secondary")
  /\ (forall p,
        inherited p = true ->
        Render.alertClass c p = MarketIntelligence.Builtin p).
Proof.
  repeat split.
  - intros p Hown Hinh Hp.
    unfold Render.alertClass, MarketIntelligence.lookup, outcome, gets. cbn [fst].
    rewrite Hown, Hinh.
    destruct (String.eqb_spec p "innerHTML") as [->|_]; [now elim Hp|reflexivity].
  - intros p Hinh.
    unfold Render.alertClass, MarketIntelligence.lookup, outcome, gets. cbn [fst].
    destruct (MarketIntelligence.own_entry p MarketIntelligence.priorityClasses)
      as [cls|] eqn:Hown.
    + exfalso. revert Hown Hinh. cbn [MarketIntelligence.own_entry
        MarketIntelligence.priorityClasses].
      destruct (String.eqb_spec "high" p) as [<-|_]; [discriminate|].
      destruct (String.eqb_spec "medium" p) as [<-|_]; [discriminate|].
      destruct (String.eqb_spec "low" p) as [<-|_]; discriminate.
    + now rewrite Hinh.
Qed.


(** C8.  A narrative whose priority is the name of a member of
    [Object.prototype] does not get the neutral class: for the priority
    "constructor" the lookup in [priorityClasses] finds the inherited
    built-in function, which is truthy, so the entry's class attribute
    holds that function's source text where "alert-secondary" should be.
    A priority such as "urgent" does get "alert-secondary". *)
Theorem inherited_priority_is_not_neutral (P : platform) :
  (exists c',
      MarketIntelligence.updateAssetDashboard P "forex"
        (VArr [Narrative.to_value (sample_narrative "constructor")]) sample_client
      = (Normal tt, c')
      /\ MarketIntelligence.containers c' MarketIntelligence.forex
         = Some (MarketIntelligence.narrativeElement P
                   (MarketIntelligence.Builtin "constructor")
                   (MarketIntelligence.Own "bi-currency-exchange")
                   "EURUSD" "constructor" "breakout"
                   (Date_toLocaleTimeString P (VStr "2024-01-01T00:00:00Z")) "82"))
  /\ MarketIntelligence.slot_ToString P (MarketIntelligence.Builtin "constructor")
     = Function_toString P "constructor"
  /\ Render.alertClass sample_client "urgent"
     = MarketIntelligence.Own "alert-secondary".
Proof.
  split; [|split; reflexivity].
  destruct (render_result P MarketIntelligence.forex
              [sample_narrative "constructor"] "<p>earlier</p>" sample_client
              eq_refl) as (c' & Hrun & Hd).
  exists c'. split; [exact Hrun|].
  destruct Hd as (_ & _ & _ & _ & _ & _ & _ & Hhtml & _).
  rewrite Hhtml. reflexivity.
Qed.

(* ===================================================================== *)
(** * Further properties of the market intelligence renderer *)
(* ===================================================================== *)

(** [updateAssetDashboard] on one of the three keys whose container exists,
    with a list of narratives: the call returns normally; the container's
    markup becomes the no-data block when the list is empty and otherwise
    what appending the entries of the narratives gives, one each, in the
    order of the list, every one appended to what the container's
    [innerHTML] reads as by then, starting from the empty container; the
    earlier markup is gone; and nothing else changes. *)
Theorem updateAssetDashboard_renders (P : platform) (a : MarketIntelligence.asset)
    (ns : list Narrative.t) (old : string) (c : MarketIntelligence.client) :
  MarketIntelligence.containers c a = Some old ->
  exists c',
    MarketIntelligence.updateAssetDashboard P (MarketIntelligence.asset_key a)
      (VArr (map Narrative.to_value ns)) c
    = (Normal tt, c')
    /\ Render.differs_at a
         (match ns with
          | [] => MarketIntelligence.no_data P (MarketIntelligence.Own (Render.icon a))
                    (MarketIntelligence.asset_key a)
          | _ :: _ => Render.appended P "" (map (Render.entry P c a) ns)
          end) c c'.
Proof. apply render_result. Qed.

Lemma updateAssetDashboard_renders_witness :
  exists c',
    MarketIntelligence.updateAssetDashboard sample_platform "crypto"
      (VArr [Narrative.to_value hold_narrative;
             Narrative.to_value (sample_narrative "low")])
      sample_client
    = (Normal tt, c')
    /\ Render.differs_at MarketIntelligence.crypto
         (escape_ampersands
            (Render.entry sample_platform sample_client MarketIntelligence.crypto
               hold_narrative)
          ++ Render.entry sample_platform sample_client MarketIntelligence.crypto
               (sample_narrative "low"))
         sample_client c'.
Proof.
  apply (updateAssetDashboard_renders sample_platform MarketIntelligence.crypto
           [hold_narrative; sample_narrative "low"]
           "<p>earlier</p>" sample_client).
  reflexivity.
Defined.

(** On the worked host the first entry of that container does not read
    back as it was written: the markup after two narratives is not the
    two entries side by side. *)
Example appended_is_not_concatenation :
  Render.appended sample_platform ""
    [Render.entry sample_platform sample_client MarketIntelligence.crypto
       hold_narrative;
     Render.entry sample_platform sample_client MarketIntelligence.crypto
       (sample_narrative "low")]
  <> (Render.entry sample_platform sample_client MarketIntelligence.crypto
        hold_narrative
      ++ Render.entry sample_platform sample_client MarketIntelligence.crypto
           (sample_narrative "low")).
Proof.
  intros H.
  apply (f_equal String.length) in H. vm_compute in H. discriminate H.
Qed.

(** The class of an entry: [alert-danger], [alert-warning] and
    [alert-info] for the priorities high, medium and low, and
    [alert-secondary] for every priority that is neither one of the three
    nor the name of a property that object literals inherit. *)
Theorem priority_classes (c : MarketIntelligence.client) (p : string) :
  MarketIntelligence.own_entry p MarketIntelligence.priorityClasses = None ->
  inherited p = false ->
  p <> "innerHTML" ->
  Render.alertClass c "high" = MarketIntelligence.Own "alert-danger"
  /\ Render.alertClass c "medium" = MarketIntelligence.Own "alert-warning"
  /\ Render.alertClass c "low" = MarketIntelligence.Own "alert-info"
  /\ Render.alertClass c p = MarketIntelligence.Own "alert-secondary".
Proof.
  intros Hown Hinh Hp.
  destruct (alertClass_cases c) as (H1 & H2 & H3 & H4 & _).
  repeat split; auto.
Qed.

Lemma priority_classes_witness :
  Render.alertClass sample_client "high" = MarketIntelligence.Own "alert-danger"
  /\ Render.alertClass sample_client "medium" = MarketIntelligence.Own "alert-warning"
  /\ Render.alertClass sample_client "low" = MarketIntelligence.Own "alert-info"
  /\ Render.alertClass sample_client "urgent" = MarketIntelligence.Own "alert-secondary".
Proof.
  apply (priority_classes sample_client "urgent").
  - reflexivity.
  - reflexivity.
  - discriminate.
Defined.

Lemma round_scaled_nearest (m : positive) (e : Z) :
  let n := round_scaled m e 0 in
  (0 <= n)%Z
  /\ (if (0 <=? e)%Z then n = (Z.pos m * 2 ^ e)%Z
      else (2 ^ (- e) * (2 * n - 1) <= 2 * Z.pos m < 2 ^ (- e) * (2 * n + 1))%Z).
Proof.
  cbv zeta. unfold round_scaled. change (10 ^ Z.of_nat 0)%Z with 1%Z.
  rewrite Z.mul_1_r.
  destruct (Z.leb_spec 0 e) as [He|He].
  - split; [|reflexivity]. apply Z.mul_nonneg_nonneg; [lia|].
    apply Z.pow_nonneg. lia.
  - assert (HD : (0 < 2 ^ (- e))%Z) by (apply Z.pow_pos_nonneg; lia).
    replace (1 - e)%Z with (Z.succ (- e)) by lia.
    rewrite Z.pow_succ_r by lia.
    set (D := (2 ^ (- e))%Z) in *.
    pose proof (Z.div_mod (2 * Z.pos m + D) (2 * D) ltac:(lia)) as Hdm.
    pose proof (Z.mod_pos_bound (2 * Z.pos m + D) (2 * D) ltac:(lia)) as Hb.
    set (n := ((2 * Z.pos m + D) / (2 * D))%Z) in *.
    split; [|nia].
    apply Z.div_pos; lia.
Qed.

(** The confidence shown in an entry is the whole number nearest to
    [confidence * 100] as the engine computes that product, a half rounded
    up: with the product [m * 2^e] (non-negative and below [1e21]) the
    digits shown are those of the integer [n] with
    [n - 1/2 <= m * 2^e < n + 1/2]. *)
Theorem confidence_is_nearest_percent (P : platform) (c : MarketIntelligence.client)
    (a : MarketIntelligence.asset) (n : Narrative.t) (m : positive) (e : Z) :
  Prim2SF (Narrative.confidence n * 100) = S754_finite false m e ->
  PrimFloat.leb 1e21 (PrimFloat.abs (Narrative.confidence n * 100)) = false ->
  exists k : Z,
    Render.entry P c a n
    = MarketIntelligence.narrativeElement P
        (Render.alertClass c (Narrative.priority n))
        (MarketIntelligence.Own (Render.icon a))
        (Narrative.symbol n) (Narrative.priority n) (Narrative.narrative n)
        (Date_toLocaleTimeString P (VStr (Narrative.timestamp n)))
        (decimal k)
    /\ (0 <= k)%Z
    /\ (if (0 <=? e)%Z then k = (Z.pos m * 2 ^ e)%Z
        else (2 ^ (- e) * (2 * k - 1) <= 2 * Z.pos m < 2 ^ (- e) * (2 * k + 1))%Z).
Proof.
  intros Hsf Hsmall. exists (round_scaled m e 0).
  split; [|apply round_scaled_nearest].
  unfold Render.entry, Number_toFixed. rewrite Hsf, Hsmall. reflexivity.
Qed.

Lemma confidence_is_nearest_percent_witness :
  exists k : Z,
    Render.entry sample_platform sample_client MarketIntelligence.forex
      (sample_narrative "high")
    = MarketIntelligence.narrativeElement sample_platform
        (MarketIntelligence.Own "alert-danger")
        (MarketIntelligence.Own "bi-currency-exchange")
        "EURUSD" "high" "breakout" "Invalid Date" (decimal k)
    /\ (0 <= k)%Z
    /\ (2 ^ 46 * (2 * k - 1) <= 2 * 5770237022568448 < 2 ^ 46 * (2 * k + 1))%Z.
Proof.
  apply (confidence_is_nearest_percent sample_platform sample_client
           MarketIntelligence.forex (sample_narrative "high")
           5770237022568448%positive (-46)%Z); vm_compute; reflexivity.
Defined.

(* ===================================================================== *)
(** * Further properties of the dashboard client *)
(* ===================================================================== *)

Lemma write_keeps_node (n n' : DashSocket.node) (s : string) :
  DashSocket.node_eqb n n' = false ->
  keeps (fun p => DashSocket.dom p n) (DashSocket.write n' s).
Proof.
  intros H. apply keeps_modify. intros p. cbn. now rewrite H.
Qed.

Lemma lacks_not_truthy (data : value) (f : string) (v : value)
    (s : DashSocket.page) :
  lacks data f -> outcome (lift (Get data f)) s = Normal v -> truthy v = false.
Proof. intros H Hv. now rewrite (H v Hv). Qed.

Lemma lacks_undefined (data : value) (f : string) (v : value)
    (s : DashSocket.page) :
  lacks data f -> outcome (lift (Get data f)) s = Normal v ->
  negb (is_undefined v) = false.
Proof. intros H Hv. now rewrite (H v Hv). Qed.

Ltac absent_field H :=
  match goal with
  | Hv : outcome (lift (Get _ _)) _ = Normal ?v, Hc : truthy ?v = true |- _ =>
      rewrite (lacks_not_truthy _ _ _ _ H Hv) in Hc; discriminate Hc
  | Hv : outcome (lift (Get _ _)) _ = Normal ?v,
    Hc : negb (is_undefined ?v) = true |- _ =>
      rewrite (lacks_undefined _ _ _ _ H Hv) in Hc; discriminate Hc
  end.

Ltac frame_step H :=
  first
    [ apply keeps_lift
    | apply keeps_gets
    | apply write_keeps_node; reflexivity
    | absent_field H
    | apply keeps_bind_result; [|intros ? [? ?]]
    | apply keeps_when; intros ?
    | progress cbv zeta ].

(** [updateDashboard] leaves a node as it is when the payload lacks the
    field that guards it, whatever else the payload holds and whether or
    not the update ends in an exception. *)
Theorem updateDashboard_keeps_absent_fields (P : platform) (data : value)
    (n : DashSocket.node) (p : DashSocket.page) :
  lacks data (field_of n) ->
  DashSocket.dom (exec (DashSocket.updateDashboard P data) p) n = DashSocket.dom p n.
Proof.
  intros H. revert p.
  change (keeps (fun p => DashSocket.dom p n) (DashSocket.updateDashboard P data)).
  unfold DashSocket.updateDashboard, DashSocket.found.
  destruct n; cbn [field_of] in H; repeat frame_step H.
Qed.

Lemma updateDashboard_keeps_absent_fields_witness :
  DashSocket.dom
    (exec (DashSocket.updateDashboard sample_platform
             (VObj [("volatility_index", VNum 18.4)])) sample_page)
    DashSocket.market_status_value
  = DashSocket.dom sample_page DashSocket.market_status_value.
Proof.
  apply (updateDashboard_keeps_absent_fields sample_platform
           (VObj [("volatility_index", VNum 18.4)])
           DashSocket.market_status_value sample_page).
  intros v H. cbn in H. now injection H as <-.
Defined.

Lemma bind_run {S A B} (m : M S A) (k : A -> M S B) (s s' : S) (a : A) :
  m s = (Normal a, s') -> bind m k s = k a s'.
Proof. intros H. unfold bind. now rewrite H. Qed.

Lemma when_skipped {S} (b : bool) (m : M S unit) (s : S) :
  m s = (Normal tt, s) -> when b m s = (Normal tt, s).
Proof. destruct b; [trivial|reflexivity]. Qed.

(** A frame that carries a number as [volatility_index] and nothing else:
    the update returns normally; the volatility value, if the element
    exists, becomes the number with two decimals; and the page is otherwise
    as it was. *)
Theorem updateDashboard_volatility_only (P : platform) (x : float)
    (p : DashSocket.page) :
  DashSocket.updateDashboard P (VObj [("volatility_index", VNum x)]) p
  = (Normal tt,
     match DashSocket.dom p DashSocket.volatility_value with
     | Some _ => exec (DashSocket.write DashSocket.volatility_value
                         (Number_toFixed P x 2)) p
     | None => p
     end).
Proof.
  unfold DashSocket.updateDashboard.
  repeat
    (first
       [ erewrite bind_run by (unfold DashSocket.found, gets; reflexivity)
       | erewrite bind_run by (apply when_skipped; reflexivity) ]).
  destruct (DashSocket.dom p DashSocket.volatility_value) as [old|] eqn:E.
  - erewrite bind_run by (cbn; reflexivity).
    repeat
      (first
         [ erewrite bind_run by (unfold DashSocket.found, gets; reflexivity)
         | erewrite bind_run by (apply when_skipped; reflexivity) ]).
    apply when_skipped. reflexivity.
  - cbn [when].
    repeat
      (first
         [ erewrite bind_run by reflexivity
         | erewrite bind_run by (unfold DashSocket.found, gets; reflexivity)
         | erewrite bind_run by (apply when_skipped; reflexivity) ]).
    apply when_skipped. reflexivity.
Qed.

Lemma onclose_schedules_backoff_parts (p : DashSocket.page) :
  DashSocket.attempts (DashSocket.reconnect (exec DashSocket.onclose p))
  = N.succ (DashSocket.attempts (DashSocket.reconnect p))
  /\ pending (DashSocket.timers (exec DashSocket.onclose p))
     = (pending (DashSocket.timers p)
        ++ [{| handle := next_handle (DashSocket.timers p);
               delay := DashSocket.exponentialBackoff
                          (N.succ (DashSocket.attempts (DashSocket.reconnect p))) |}])%list
  /\ DashSocket.timeout (DashSocket.reconnect (exec DashSocket.onclose p))
     = Some (next_handle (DashSocket.timers p)).
Proof. repeat split. Qed.

(** Every close counts one more attempt and schedules exactly one new
    timer, whose handle it stores and whose delay is
    [min (5000 * 2^attempts) 60000] milliseconds for the attempt count
    after the increment: 10000 at the least, never the base delay. *)
Theorem onclose_schedules_backoff (p : DashSocket.page) :
  let p' := exec DashSocket.onclose p in
  let k := N.succ (DashSocket.attempts (DashSocket.reconnect p)) in
  DashSocket.attempts (DashSocket.reconnect p') = k
  /\ pending (DashSocket.timers p')
     = (pending (DashSocket.timers p)
        ++ [{| handle := next_handle (DashSocket.timers p);
               delay := DashSocket.exponentialBackoff k |}])%list
  /\ DashSocket.timeout (DashSocket.reconnect p')
     = Some (next_handle (DashSocket.timers p))
  /\ integer_value (DashSocket.exponentialBackoff k)
     = Some (Z.min (5000 * 2 ^ Z.of_N k) 60000)
  /\ (10000 <= Z.min (5000 * 2 ^ Z.of_N k) 60000 <= 60000)%Z.
Proof.
  cbv zeta. repeat split.
  - apply exponentialBackoff_value.
  - apply Z.min_glb; [|lia].
    assert (2 ^ 1 <= 2 ^ Z.of_N (N.succ (DashSocket.attempts (DashSocket.reconnect p))))%Z
      by (apply Z.pow_le_mono_r; lia).
    lia.
  - apply Z.le_min_r.
Qed.

(** [connectDashSocket] cancels the timer whose handle is stored, keeps
    the attempt count, and makes [dashSocket] a new socket, still
    connecting, for the URL of the page. *)
Theorem connectDashSocket_replaces_socket (p : DashSocket.page) (h : nat) :
  DashSocket.timeout (DashSocket.reconnect p) = Some h ->
  let p' := exec DashSocket.connectDashSocket p in
  is_pending h (DashSocket.timers p') = false
  /\ DashSocket.reconnect p' = DashSocket.reconnect p
  /\ DashSocket.dashSocket p' = Some (List.length (DashSocket.sockets p))
  /\ nth_error (DashSocket.sockets p') (List.length (DashSocket.sockets p))
     = Some (new_websocket (DashSocket.wsUrl (DashSocket.location p)))
  /\ DashSocket.dom p' = DashSocket.dom p.
Proof.
  intros H. cbv zeta. unfold DashSocket.connectDashSocket. cbn.
  rewrite H. repeat split.
  - apply is_pending_cleared.
  - rewrite nth_error_app2 by lia. now rewrite Nat.sub_diag.
Qed.

Lemma connectDashSocket_replaces_socket_witness :
  let p := exec DashSocket.onclose sample_page in
  let p' := exec DashSocket.connectDashSocket p in
  is_pending 1 (DashSocket.timers p') = false
  /\ DashSocket.reconnect p' = DashSocket.reconnect p
  /\ DashSocket.dashSocket p' = Some (List.length (DashSocket.sockets p))
  /\ nth_error (DashSocket.sockets p') (List.length (DashSocket.sockets p))
     = Some (new_websocket (DashSocket.wsUrl (DashSocket.location p)))
  /\ DashSocket.dom p' = DashSocket.dom p.
Proof.
  cbv zeta.
  apply (connectDashSocket_replaces_socket (exec DashSocket.onclose sample_page) 1).
  reflexivity.
Defined.

Lemma nth_error_replace_nth {A} (i : nat) (a w : A) (l : list A) :
  nth_error l i = Some w -> nth_error (replace_nth i a l) i = Some a.
Proof.
  revert l. induction i as [|i IH]; intros [|x l] H; try discriminate.
  - reflexivity.
  - unfold replace_nth. cbn. apply (IH l H).
Qed.

(** The [beforeunload] listener does not end the reconnection: it closes
    the socket and clears the stored timer, but the close event the socket
    then delivers runs [onclose], which schedules a reconnect again. *)
Theorem close_after_unload_schedules_again (P : platform) (p : DashSocket.page)
    (i : nat) (w : websocket) :
  DashSocket.dashSocket p = Some i ->
  nth_error (DashSocket.sockets p) i = Some w ->
  ready w = OPEN ->
  let unloaded := exec DashSocket.beforeunload p in
  DashSocket.socket_ready i unloaded = Some CLOSING
  /\ DashSocket.deliverable (DashSocket.Closed i) unloaded = true
  /\ (1 <= count_pending
             (DashSocket.timers
                (exec (DashSocket.dispatch P (DashSocket.Closed i)) unloaded)))%nat.
Proof.
  intros Hd Hw Hr. cbv zeta.
  assert (Hready : DashSocket.socket_ready i (exec DashSocket.beforeunload p)
                   = Some CLOSING).
  { unfold DashSocket.beforeunload, DashSocket.socket_ready. cbn.
    rewrite Hd, Hw. cbn.
    rewrite (nth_error_replace_nth i _ w _ Hw). cbn.
    unfold websocket_close. now rewrite Hr. }
  split; [exact Hready|]. split.
  - cbn [DashSocket.deliverable]. now rewrite Hready.
  - cbn [DashSocket.dispatch]. rewrite exec_bind.
    cbn [outcome DashSocket.mark modify fst].
    destruct (DashFacts.onclose_counts
                (exec (DashSocket.mark i CLOSED) (exec DashSocket.beforeunload p)))
      as [Hc _].
    rewrite Hc. lia.
Qed.

Lemma close_after_unload_schedules_again_witness :
  let p := exec (DashSocket.dispatch sample_platform (DashSocket.Opened 0)) sample_page in
  let unloaded := exec DashSocket.beforeunload p in
  DashSocket.socket_ready 0 unloaded = Some CLOSING
  /\ DashSocket.deliverable (DashSocket.Closed 0) unloaded = true
  /\ (1 <= count_pending
             (DashSocket.timers
                (exec (DashSocket.dispatch sample_platform (DashSocket.Closed 0))
                   unloaded)))%nat.
Proof.
  cbv zeta.
  apply (close_after_unload_schedules_again sample_platform
           (exec (DashSocket.dispatch sample_platform (DashSocket.Opened 0)) sample_page)
           0 (set_ready OPEN (new_websocket (DashSocket.wsUrl sample_location))));
    reflexivity.
Defined.

Lemma Forall_filter_kept {A} (Q : A -> Prop) (f : A -> bool) (l : list A) :
  Forall Q l -> Forall Q (filter f l).
Proof.
  intros H. apply Forall_forall. intros x Hx. apply filter_In in Hx.
  rewrite Forall_forall in H. now apply H.
Qed.

Lemma dispatch_backoff_timers (P : platform) (ev : DashSocket.event)
    (p : DashSocket.page) :
  Forall backoff_timer (pending (DashSocket.timers p)) ->
  Forall backoff_timer
    (pending (DashSocket.timers (exec (DashSocket.dispatch P ev) p))).
Proof.
  intros H. destruct ev as [i|i text|i|i|h|]; cbn [DashSocket.dispatch].
  - rewrite exec_bind. cbn [outcome DashSocket.mark modify fst].
    destruct (DashFacts.onopen_counts (exec (DashSocket.mark i OPEN) p)) as [-> _].
    unfold DashSocket.mark, exec, modify. cbn [snd].
    now destruct (nth_error (DashSocket.sockets p) i).
  - pose proof (DashFacts.onmessage_keeps_connection P text p) as Hk.
    unfold dash_connection in Hk. injection Hk as _ _ _ Ht. now rewrite Ht.
  - exact H.
  - rewrite exec_bind. cbn [outcome DashSocket.mark modify fst].
    set (p1 := exec (DashSocket.mark i CLOSED) p).
    assert (Ht : DashSocket.timers p1 = DashSocket.timers p).
    { unfold p1, DashSocket.mark, exec, modify. cbn [snd].
      now destruct (nth_error (DashSocket.sockets p) i). }
    destruct (onclose_schedules_backoff_parts p1) as (_ & Hp & _).
    rewrite Hp, Ht. apply Forall_app. split; [exact H|].
    constructor; [|constructor].
    exists (N.succ (DashSocket.attempts (DashSocket.reconnect p1))).
    split; [lia|reflexivity].
  - rewrite exec_bind. cbn [outcome modify fst].
    unfold DashSocket.connectDashSocket. cbn.
    destruct (DashSocket.timeout (DashSocket.reconnect p)); cbn;
      repeat apply Forall_filter_kept; exact H.
  - unfold DashSocket.beforeunload. cbn.
    assert (Hs : forall q : DashSocket.page,
               DashSocket.timers q = DashSocket.timers p ->
               DashSocket.reconnect q = DashSocket.reconnect p ->
               Forall backoff_timer
                 (pending (clearTimeout (DashSocket.timeout (DashSocket.reconnect q))
                             (DashSocket.timers q)))).
    { intros q -> ->.
      destruct (DashSocket.timeout (DashSocket.reconnect p)); cbn;
        [now apply Forall_filter_kept|exact H]. }
    apply Hs.
    + destruct (DashSocket.dashSocket p) as [i|]; [|reflexivity].
      now destruct (nth_error (DashSocket.sockets p) i).
    + destruct (DashSocket.dashSocket p) as [i|]; [|reflexivity].
      now destruct (nth_error (DashSocket.sockets p) i).
Qed.

Lemma run_backoff_timers (P : platform) (trace : list DashSocket.event)
    (p p' : DashSocket.page) :
  Forall backoff_timer (pending (DashSocket.timers p)) ->
  DashSocket.run P trace p = Some p' ->
  Forall backoff_timer (pending (DashSocket.timers p')).
Proof.
  revert p. induction trace as [|ev rest IH]; intros p H Hrun; cbn in Hrun.
  - now injection Hrun as <-.
  - destruct (DashSocket.deliverable ev p); [|discriminate].
    apply (IH _ (dispatch_backoff_timers P ev p H) Hrun).
Qed.

(** In every run of the dashboard page, every pending reconnect timer
    waits a whole number of milliseconds between 10000 and 60000: the base
    delay of 5000 is never used. *)
Theorem pending_delays_are_backed_off (P : platform) (loc : Browser.location)
    (d : DashSocket.node -> option string) (trace : list DashSocket.event)
    (p : DashSocket.page) (t : timer) :
  DashSocket.run P trace (DashSocket.DOMContentLoaded loc d) = Some p ->
  In t (pending (DashSocket.timers p)) ->
  exists ms : Z,
    integer_value (delay t) = Some ms /\ (10000 <= ms <= 60000)%Z.
Proof.
  intros Hrun Hin.
  assert (H0 : Forall backoff_timer
                 (pending (DashSocket.timers (DashSocket.DOMContentLoaded loc d))))
    by constructor.
  pose proof (run_backoff_timers P trace _ p H0 Hrun) as H.
  rewrite Forall_forall in H. destruct (H t Hin) as (k & Hk & ->).
  exists (backoff_ms k). split; [apply exponentialBackoff_value|].
  unfold backoff_ms. split.
  - apply Z.min_glb; [|lia].
    assert (2 ^ 1 <= 2 ^ Z.of_N k)%Z by (apply Z.pow_le_mono_r; lia). lia.
  - apply Z.le_min_r.
Qed.

Lemma pending_delays_are_backed_off_witness :
  exists ms : Z,
    integer_value (DashSocket.exponentialBackoff 1) = Some ms
    /\ (10000 <= ms <= 60000)%Z.
Proof.
  apply (pending_delays_are_backed_off sample_platform sample_location
           sample_document [DashSocket.Closed 0]
           (exec (DashSocket.dispatch sample_platform (DashSocket.Closed 0)) sample_page)
           {| handle := 1; delay := DashSocket.exponentialBackoff 1 |}).
  - vm_compute. reflexivity.
  - left. reflexivity.
Defined.

(* ===================================================================== *)
(** * Further properties of the market intelligence client *)
(* ===================================================================== *)

Lemma mi_dispatch_exactly_one (P : platform) (ev : MarketIntelligence.event)
    (c : MarketIntelligence.client) :
  MarketIntelligence.deliverable ev c = true ->
  (count_pending (MarketIntelligence.timers c)
   + count_live (MarketIntelligence.sockets c) = 1)%nat ->
  (count_pending (MarketIntelligence.timers (exec (MarketIntelligence.dispatch P ev) c))
   + count_live (MarketIntelligence.sockets (exec (MarketIntelligence.dispatch P ev) c))
   = 1)%nat.
Proof.
  intros Hev Hb.
  destruct ev as [i|i text|i|i|h|]; cbn [MarketIntelligence.dispatch].
  - cbn in Hev.
    destruct (MarketIntelligence.socket_ready i c) as [[]|] eqn:E; try discriminate.
    destruct (MIFacts.mi_socket_ready_inv _ _ _ E) as (w & Hw & Hr).
    destruct (MIFacts.mi_mark_counts i OPEN c w Hw) as [Ht Hc].
    rewrite Ht. unfold live in Hc. rewrite Hr in Hc.
    cbn [readyState_eqb negb set_ready ready] in Hc. lia.
  - pose proof (MIFacts.handleMessage_keeps_connection P text c) as H.
    unfold mi_connection in H. injection H as _ Hs Ht. rewrite Hs, Ht. exact Hb.
  - exact Hb.
  - cbn in Hev.
    destruct (MarketIntelligence.socket_ready i c) as [r|] eqn:E; [|discriminate].
    destruct (MIFacts.mi_socket_ready_inv _ _ _ E) as (w & Hw & Hr).
    destruct (MIFacts.mi_mark_counts i CLOSED c w Hw) as [Ht Hc].
    rewrite exec_bind. cbn [outcome MarketIntelligence.mark modify fst].
    destruct (MIFacts.handleClose_counts (exec (MarketIntelligence.mark i CLOSED) c))
      as [Hp Hs].
    rewrite Hp, Hs, Ht.
    unfold live in Hc. rewrite Hr in Hc.
    destruct r; try discriminate;
      cbn [readyState_eqb negb set_ready ready] in Hc; lia.
  - cbn in Hev. rewrite exec_bind. cbn [outcome modify fst].
    set (c1 := exec (modify (fun c0 => MarketIntelligence.set_timers
                                         (fired h (MarketIntelligence.timers c0)) c0)) c).
    destruct (MIFacts.reconnect_counts c1) as [Hp Hs].
    pose proof (count_pending_fired h (MarketIntelligence.timers c) Hev) as Hf.
    assert (MarketIntelligence.timers c1 = fired h (MarketIntelligence.timers c))
      as Et by reflexivity.
    assert (MarketIntelligence.sockets c1 = MarketIntelligence.sockets c)
      as Es by reflexivity.
    rewrite Hp, Hs, Et, Es. lia.
  - unfold MarketIntelligence.requestImmediateUpdate.
    destruct (MIFacts.socket_send_counts
                (JSON_stringify P (VObj [("type", VStr "request_update")])) c)
      as [Ht Hs].
    rewrite Ht, Hs. exact Hb.
Qed.

(** The market intelligence instance never gives up and never doubles: in
    every run, either one socket is live and no reconnect is pending, or no
    socket is live and exactly one reconnect is pending. *)
Theorem mi_one_socket_or_one_timer (P : platform) (loc : Browser.location)
    (regions : MarketIntelligence.asset -> option string) (stamp : option string)
    (trace : list MarketIntelligence.event) (c : MarketIntelligence.client) :
  MarketIntelligence.run P trace (MarketIntelligence.constructor loc regions stamp)
  = Some c ->
  (count_pending (MarketIntelligence.timers c)
   + count_live (MarketIntelligence.sockets c) = 1)%nat.
Proof.
  assert (H0 : (count_pending (MarketIntelligence.timers
                                 (MarketIntelligence.constructor loc regions stamp))
                + count_live (MarketIntelligence.sockets
                                (MarketIntelligence.constructor loc regions stamp))
                = 1)%nat) by reflexivity.
  revert H0. generalize (MarketIntelligence.constructor loc regions stamp).
  induction trace as [|ev rest IH]; intros c0 H0 Hrun; cbn in Hrun.
  - now injection Hrun as <-.
  - destruct (MarketIntelligence.deliverable ev c0) eqn:E; [|discriminate].
    apply (IH _ (mi_dispatch_exactly_one P ev c0 E H0) Hrun).
Qed.

Lemma mi_one_socket_or_one_timer_witness :
  let c :=
    exec (MarketIntelligence.dispatch sample_platform (MarketIntelligence.TimerFired 1))
      (exec (MarketIntelligence.dispatch sample_platform (MarketIntelligence.Closed 0))
         sample_client) in
  (count_pending (MarketIntelligence.timers c)
   + count_live (MarketIntelligence.sockets c) = 1)%nat.
Proof.
  cbv zeta.
  apply (mi_one_socket_or_one_timer sample_platform sample_location sample_regions
           (Some "-")
           [MarketIntelligence.Closed 0; MarketIntelligence.TimerFired 1]).
  vm_compute. reflexivity.
Defined.



(** A [market_intelligence] or [immediate_update] frame that carries no
    [data] is dropped: the error is caught and logged, no container and no
    time stamp changes. *)
Theorem frame_without_data_is_dropped (P : platform) (text : string)
    (data type payload : value) (c : MarketIntelligence.client) :
  parse P text = Normal data ->
  Get data "type" = Normal type ->
  strict_eq_string type "market_intelligence"
  || strict_eq_string type "immediate_update" = true ->
  Get data "data" = Normal payload ->
  payload = VUndefined \/ payload = VNull ->
  MarketIntelligence.handleMessage P text c
  = (Normal tt,
     MarketIntelligence.set_console
       (MarketIntelligence.console c ++ [(Error, "Error parsing WebSocket message:")])
       c).
Proof.
  intros Hdata Htype Hb Hpayload Hor.
  unfold MarketIntelligence.handleMessage, try_catch, bind, lift.
  rewrite Hdata, Htype, Hb, Hpayload.
  unfold MarketIntelligence.updateAllAssetDashboards, bind, lift.
  destruct Hor as [->| ->]; reflexivity.
Qed.

Lemma frame_without_data_is_dropped_witness :
  MarketIntelligence.handleMessage
    (frame_platform
       (VObj [("type", VStr "immediate_update")]))
    "no data" sample_client
  = (Normal tt,
     MarketIntelligence.set_console [(Error, "Error parsing WebSocket message:")]
       sample_client).
Proof.
  apply (frame_without_data_is_dropped _ "no data"
           (VObj [("type", VStr "immediate_update")])
           (VStr "immediate_update") VUndefined sample_client).
  - reflexivity.
  - reflexivity.
  - reflexivity.
  - reflexivity.
  - now left.
Defined.

(** On an open socket [requestImmediateUpdate] hands exactly one frame to
    the network, the serialised [{type: "request_update"}], after the
    frames sent before; it returns normally and changes nothing else. *)
Theorem requestImmediateUpdate_sends_when_open (P : platform)
    (c : MarketIntelligence.client) (w : websocket) :
  nth_error (MarketIntelligence.sockets c) (MarketIntelligence.socket c) = Some w ->
  ready w = OPEN ->
  exists c',
    MarketIntelligence.requestImmediateUpdate P c = (Normal tt, c')
    /\ nth_error (MarketIntelligence.sockets c') (MarketIntelligence.socket c')
       = Some {| url := url w; ready := OPEN;
                 sent := (sent w
                          ++ [JSON_stringify P (VObj [("type", VStr "request_update")])])%list |}
    /\ MarketIntelligence.socket c' = MarketIntelligence.socket c
    /\ List.length (MarketIntelligence.sockets c')
       = List.length (MarketIntelligence.sockets c)
    /\ MarketIntelligence.timers c' = MarketIntelligence.timers c
    /\ MarketIntelligence.containers c' = MarketIntelligence.containers c
    /\ MarketIntelligence.last_updated_time c' = MarketIntelligence.last_updated_time c
    /\ MarketIntelligence.console c' = MarketIntelligence.console c.
Proof.
  intros Hw Hr.
  unfold MarketIntelligence.requestImmediateUpdate, MarketIntelligence.socket_send.
  rewrite Hw. unfold websocket_send. rewrite Hr.
  eexists. split; [reflexivity|]. cbn.
  split; [now apply (nth_error_replace_nth _ _ w)|].
  repeat split.
  destruct (replace_nth_split (MarketIntelligence.socket c)
              {| url := url w; ready := OPEN;
                 sent := (sent w
                          ++ [JSON_stringify P (VObj [("type", VStr "request_update")])])%list |}
              w _ Hw) as [E1 E2].
  rewrite E2. rewrite E1 at 3. rewrite !length_app. reflexivity.
Qed.

Lemma requestImmediateUpdate_sends_when_open_witness :
  let c := exec (MarketIntelligence.mark 0 OPEN) sample_client in
  exists c',
    MarketIntelligence.requestImmediateUpdate sample_platform c = (Normal tt, c')
    /\ nth_error (MarketIntelligence.sockets c') (MarketIntelligence.socket c')
       = Some {| url := "ws://lunar.example/ws/market-intelligence/"; ready := OPEN;
                 sent := ["{}"] |}
    /\ MarketIntelligence.socket c' = MarketIntelligence.socket c
    /\ List.length (MarketIntelligence.sockets c')
       = List.length (MarketIntelligence.sockets c)
    /\ MarketIntelligence.timers c' = MarketIntelligence.timers c
    /\ MarketIntelligence.containers c' = MarketIntelligence.containers c
    /\ MarketIntelligence.last_updated_time c' = MarketIntelligence.last_updated_time c
    /\ MarketIntelligence.console c' = MarketIntelligence.console c.
Proof.
  cbv zeta.
  apply (requestImmediateUpdate_sends_when_open sample_platform
           (exec (MarketIntelligence.mark 0 OPEN) sample_client)
           (set_ready OPEN (new_websocket
              (MarketIntelligence.socket_url sample_location))));
    reflexivity.
Defined.

(** * The template script: failures reach the browser *)

(** The template's [onmessage] has no [try]: text that is not JSON makes it
    throw a SyntaxError, and a page without the market status element makes
    it throw a TypeError on every frame; in both cases no widget is
    updated. *)
Theorem template_onmessage_throws (P : platform) (text : string)
    (d : Template.document) :
  (JSON_parse P text = None \/
   (JSON_parse P text <> None /\ d Template.market_status_value = None)) ->
  exists e,
    Template.onmessage P text d = (Throw e, d)
    /\ e = match JSON_parse P text with
           | None => SyntaxError
           | Some _ => TypeError
           end.
Proof.
  intros H. unfold Template.onmessage, bind, lift at 1, parse.
  destruct (JSON_parse P text) as [data|] eqn:E.
  - destruct H as [H|[_ Hd]]; [discriminate|].
    exists TypeError. split; [|reflexivity].
    unfold lift at 1. destruct (Get data "market_status") as [v|e] eqn:G.
    + unfold Template.assign at 1. now rewrite Hd.
    + destruct data; cbn in G; try discriminate; now injection G as <-.
  - exists SyntaxError. split; reflexivity.
Qed.

Lemma template_onmessage_throws_witness :
  exists e,
    Template.onmessage sample_platform "{not json" (fun _ => Some "-")
    = (Throw e, fun _ => Some "-")
    /\ e = SyntaxError.
Proof.
  apply (template_onmessage_throws sample_platform "{not json" (fun _ => Some "-")).
  left. reflexivity.
Defined.

(** * A whole market intelligence frame *)



